(** * AR activation of the model viewer element (src/features/ar.ts)

    The AR mixin selects one AR mode from platform flags and attributes
    ([update]), shows or hides the AR button, and activates the selected
    mode ([activateAR]): a quick-look anchor click, an intent-URI anchor
    click, or a WebXR presentation under full screen
    ([enterARWithWebXR]).

    The embedding is a small program monad: a program reads and writes
    the [World] (the element, the document, the renderer, the two
    module-level anchors and the trace of observable calls), obtains
    promises from the host, throws, catches, and suspends on a promise.
    The host settles promises between the runs of a suspended
    program. *)

From Stdlib Require Import String Ascii List Bool Arith Lia.
Import ListNotations.
Open Scope string_scope.
Open Scope list_scope.

Set Implicit Arguments.

(** ** Values of the host language *)

(** What is thrown: the language's TypeError and URIError, and the
    errors with which the host rejects its promises. *)
Inductive JsError : Type :=
| TypeError (message : string)
| URIError (message : string)
| HostError (message : string).

Inductive Value : Type :=
| VUndefined
| VBool (b : bool)
| VElement (node : nat).

(** [if (v)], [!!v] and the operands of [&&], [||]. *)
Definition truthy (v : Value) : bool :=
  match v with
  | VUndefined => false
  | VBool b => b
  | VElement _ => true
  end.

(** [!!s] for a [string|null] property: null and the empty string are
    falsy. *)
Definition truthy_string (s : option string) : bool :=
  match s with
  | None => false
  | Some EmptyString => false
  | Some (String _ _) => true
  end.

(** A [string|null] passed where the platform expects a string (the
    [!] of TypeScript is erased): null becomes the text null. *)
Definition js_String (s : option string) : string :=
  match s with
  | Some s' => s'
  | None => "null"
  end.

(** [s || ''] *)
Definition or_empty (s : option string) : string :=
  match s with
  | Some s' => s'
  | None => EmptyString
  end.

(** [type ARMode = 'quick-look'|'ar-viewer'|'unstable-webxr'|'none'] *)
Inductive ARMode : Type :=
| QUICK_LOOK
| AR_VIEWER
| UNSTABLE_WEBXR
| NONE.

Definition ARMode_eqb (a b : ARMode) : bool :=
  match a, b with
  | QUICK_LOOK, QUICK_LOOK => true
  | AR_VIEWER, AR_VIEWER => true
  | UNSTABLE_WEBXR, UNSTABLE_WEBXR => true
  | NONE, NONE => true
  | _, _ => false
  end.

(** ** The world *)

(** Identity of the elements [document.fullscreenElement] can hold and
    of the scenes the shared renderer can present. *)
Inductive ElementRef : Type :=
| ThisHost
| OtherElement (n : nat).

Inductive SceneRef : Type :=
| ThisScene
| OtherScene (n : nat).

Definition is_this_host (e : option ElementRef) : bool :=
  match e with
  | Some ThisHost => true
  | _ => false
  end.

Definition is_this_scene (s : option SceneRef) : bool :=
  match s with
  | Some ThisScene => true
  | _ => false
  end.

(** The function objects registered as event listeners: the click
    handler kept in a field of the element, and the closure the
    constructor makes for the document. *)
Inductive ClickListener : Type :=
| ArButtonClickHandler
| OtherClickListener (n : nat).

Definition ClickListener_eqb (a b : ClickListener) : bool :=
  match a, b with
  | ArButtonClickHandler, ArButtonClickHandler => true
  | OtherClickListener n, OtherClickListener m => Nat.eqb n m
  | _, _ => false
  end.

Inductive FullscreenListener : Type :=
| OnFullscreenchange.

(** The two anchors made once when the module is loaded. *)
Inductive AnchorId : Type :=
| QuickLookAnchor
| ArViewerAnchor.

Record Anchor : Type := mkAnchor {
  anchor_rel : option string;
  anchor_href : option string
}.

Definition PromiseId := nat.

Inductive PromiseKind : Type :=
| KRequestFullscreen
| KExitFullscreen
| KPresent
| KSupportsPresentation.

Inductive Settlement : Type :=
| Fulfilled (v : Value)
| Rejected (e : JsError).

Inductive PromiseState : Type :=
| Pending
| Settled (s : Settlement).

Record PromiseRec : Type := mkPromise {
  p_kind : PromiseKind;
  p_state : PromiseState;
  p_handled : bool
}.

(** What an observer outside the element can see, in order. *)
Inductive Event : Type :=
| ConsoleLog (text : string)
| ConsoleWarn (text : string)
| ConsoleError (e : JsError)
| CalledRequestFullscreen
| CalledExitFullscreen
| CalledPresent (scene : SceneRef)
| CalledSupportsPresentation
| CalledStopPresenting
| Clicked (which : AnchorId) (a : Anchor)
| UnhandledRejection (e : JsError).

Record World : Type := mkWorld {
  (* properties of the element *)
  ar : bool;
  unstableWebxr : bool;
  iosSrc : option string;
  src : option string;
  alt : option string;
  (* private state of the mixin *)
  arMode : ARMode;
  arButton_display : string;
  arButton_click : list ClickListener;
  shadowRoot_children : list nat;
  (* the document *)
  fullscreenElement : option ElementRef;
  fullscreenchange_listeners : list FullscreenListener;
  location : string;
  (* the shared renderer *)
  presentedScene : option SceneRef;
  stopPresenting_error : option JsError;
  (* module-level anchors *)
  quickLookAnchor : Anchor;
  arViewerAnchor : Anchor;
  (* what was logged and which calls were made *)
  trace : list Event
}.

Definition set_unstableWebxr (b : bool) (w : World) : World :=
  mkWorld (ar w) b (iosSrc w) (src w) (alt w)
    (arMode w) (arButton_display w) (arButton_click w) (shadowRoot_children w)
    (fullscreenElement w) (fullscreenchange_listeners w) (location w)
    (presentedScene w) (stopPresenting_error w)
    (quickLookAnchor w) (arViewerAnchor w)
    (trace w).

Definition set_arMode (m : ARMode) (w : World) : World :=
  mkWorld (ar w) (unstableWebxr w) (iosSrc w) (src w) (alt w)
    m (arButton_display w) (arButton_click w) (shadowRoot_children w)
    (fullscreenElement w) (fullscreenchange_listeners w) (location w)
    (presentedScene w) (stopPresenting_error w)
    (quickLookAnchor w) (arViewerAnchor w)
    (trace w).

Definition set_arButton_display (d : string) (w : World) : World :=
  mkWorld (ar w) (unstableWebxr w) (iosSrc w) (src w) (alt w)
    (arMode w) d (arButton_click w) (shadowRoot_children w)
    (fullscreenElement w) (fullscreenchange_listeners w) (location w)
    (presentedScene w) (stopPresenting_error w)
    (quickLookAnchor w) (arViewerAnchor w)
    (trace w).

Definition set_arButton_click (l : list ClickListener) (w : World) : World :=
  mkWorld (ar w) (unstableWebxr w) (iosSrc w) (src w) (alt w)
    (arMode w) (arButton_display w) l (shadowRoot_children w)
    (fullscreenElement w) (fullscreenchange_listeners w) (location w)
    (presentedScene w) (stopPresenting_error w)
    (quickLookAnchor w) (arViewerAnchor w)
    (trace w).

Definition set_shadowRoot_children (c : list nat) (w : World) : World :=
  mkWorld (ar w) (unstableWebxr w) (iosSrc w) (src w) (alt w)
    (arMode w) (arButton_display w) (arButton_click w) c
    (fullscreenElement w) (fullscreenchange_listeners w) (location w)
    (presentedScene w) (stopPresenting_error w)
    (quickLookAnchor w) (arViewerAnchor w)
    (trace w).

Definition set_fullscreenElement (e : option ElementRef) (w : World) : World :=
  mkWorld (ar w) (unstableWebxr w) (iosSrc w) (src w) (alt w)
    (arMode w) (arButton_display w) (arButton_click w) (shadowRoot_children w)
    e (fullscreenchange_listeners w) (location w)
    (presentedScene w) (stopPresenting_error w)
    (quickLookAnchor w) (arViewerAnchor w)
    (trace w).

Definition set_fullscreenchange_listeners (l : list FullscreenListener) (w : World)
  : World :=
  mkWorld (ar w) (unstableWebxr w) (iosSrc w) (src w) (alt w)
    (arMode w) (arButton_display w) (arButton_click w) (shadowRoot_children w)
    (fullscreenElement w) l (location w)
    (presentedScene w) (stopPresenting_error w)
    (quickLookAnchor w) (arViewerAnchor w)
    (trace w).

Definition set_quickLookAnchor (a : Anchor) (w : World) : World :=
  mkWorld (ar w) (unstableWebxr w) (iosSrc w) (src w) (alt w)
    (arMode w) (arButton_display w) (arButton_click w) (shadowRoot_children w)
    (fullscreenElement w) (fullscreenchange_listeners w) (location w)
    (presentedScene w) (stopPresenting_error w)
    a (arViewerAnchor w)
    (trace w).

Definition set_arViewerAnchor (a : Anchor) (w : World) : World :=
  mkWorld (ar w) (unstableWebxr w) (iosSrc w) (src w) (alt w)
    (arMode w) (arButton_display w) (arButton_click w) (shadowRoot_children w)
    (fullscreenElement w) (fullscreenchange_listeners w) (location w)
    (presentedScene w) (stopPresenting_error w)
    (quickLookAnchor w) a
    (trace w).

Definition set_trace (t : list Event) (w : World) : World :=
  mkWorld (ar w) (unstableWebxr w) (iosSrc w) (src w) (alt w)
    (arMode w) (arButton_display w) (arButton_click w) (shadowRoot_children w)
    (fullscreenElement w) (fullscreenchange_listeners w) (location w)
    (presentedScene w) (stopPresenting_error w)
    (quickLookAnchor w) (arViewerAnchor w)
    t.

(** ** The promises of one call

    The promises a call of an async function obtains from the host are
    its own values: each call keeps them in a store of its own, newest
    first, numbered from 0 in the order they were made. *)

Definition Store : Type := list (PromiseId * PromiseRec).

Fixpoint find_promise (pid : PromiseId) (st : Store) : option PromiseRec :=
  match st with
  | [] => None
  | (q, r) :: st' => if Nat.eqb q pid then Some r else find_promise pid st'
  end.

Fixpoint replace_promise (pid : PromiseId) (f : PromiseRec -> PromiseRec)
  (st : Store) : Store :=
  match st with
  | [] => []
  | (q, r) :: st' =>
      if Nat.eqb q pid then (q, f r) :: st'
      else (q, r) :: replace_promise pid f st'
  end.

Definition promise_state (pid : PromiseId) (st : Store) : PromiseState :=
  match find_promise pid st with
  | Some r => p_state r
  | None => Pending
  end.

(** A reaction is attached to the promise ([await]). *)
Definition mark_handled (pid : PromiseId) (st : Store) : Store :=
  replace_promise pid (fun r => mkPromise (p_kind r) (p_state r) true) st.

Definition alloc_promise (k : PromiseKind) (st : Store) : Store :=
  (length st, mkPromise k Pending false) :: st.

(** ** Programs *)

(** [Promise kind k] is a call into the host that returns a new pending
    promise; [Await] suspends until the promise is settled and throws
    its rejection; [Try body handler k] is [try { body } catch (error)
    { handler error }] followed by [k]. *)
Inductive Prog (A : Type) : Type :=
| Ret (a : A)
| Throw (e : JsError)
| Read (k : World -> Prog A)
| Mutate (f : World -> World) (k : Prog A)
| Promise (kind : PromiseKind) (k : PromiseId -> Prog A)
| Await (p : PromiseId) (k : Value -> Prog A)
| Try (body : Prog unit) (handler : JsError -> Prog unit) (k : Prog A).

Arguments Throw {A} e.

Fixpoint bind {A B : Type} (p : Prog A) (f : A -> Prog B) : Prog B :=
  match p with
  | Ret a => f a
  | Throw e => Throw e
  | Read k => Read (fun w => bind (k w) f)
  | Mutate g k => Mutate g (bind k f)
  | Promise kind k => Promise kind (fun pid => bind (k pid) f)
  | Await pid k => Await pid (fun v => bind (k v) f)
  | Try body h k => Try body h (bind k f)
  end.

Declare Scope prog_scope.
Delimit Scope prog_scope with prog.
Notation "x <- m ;; k" := (bind m (fun x => k))
  (at level 61, m at next level, right associativity) : prog_scope.
Notation "m ;; k" := (bind m (fun _ => k))
  (at level 61, right associativity) : prog_scope.
Open Scope prog_scope.

(** How a run of a program ends: it returned, it threw, or it is
    suspended on a promise with the rest of the program. *)
Inductive Outcome (A : Type) : Type :=
| Done (a : A)
| Failed (e : JsError)
| Blocked (p : PromiseId) (k : Prog A).

Arguments Failed {A} e.

(** One turn of the event loop: the program runs until it ends or
    reaches an [await] whose promise is not settled yet. *)
Fixpoint run {A : Type} (p : Prog A) (w : World) (st : Store)
  : Outcome A * World * Store :=
  match p with
  | Ret a => (Done a, w, st)
  | Throw e => (Failed e, w, st)
  | Read k => run (k w) w st
  | Mutate f k => run k (f w) st
  | Promise kind k => run (k (length st)) w (alloc_promise kind st)
  | Await pid k =>
      match promise_state pid st with
      | Settled (Fulfilled v) => run (k v) w (mark_handled pid st)
      | Settled (Rejected e) => (Failed e, w, mark_handled pid st)
      | Pending => (Blocked pid (Await pid k), w, mark_handled pid st)
      end
  | Try body h k =>
      match run body w st with
      | (Done _, w1, st1) => run k w1 st1
      | (Failed e, w1, st1) =>
          match run (h e) w1 st1 with
          | (Done _, w2, st2) => run k w2 st2
          | (Failed e', w2, st2) => (Failed e', w2, st2)
          | (Blocked pid h', w2, st2) =>
              (Blocked pid (Try h' (fun e' => Throw e') k), w2, st2)
          end
      | (Blocked pid body', w1, st1) => (Blocked pid (Try body' h k), w1, st1)
      end
  end.

Definition get {A : Type} (f : World -> A) : Prog A :=
  Read (fun w => Ret (f w)).

Definition modify (f : World -> World) : Prog unit :=
  Mutate f (Ret tt).

Definition emit (ev : Event) : Prog unit :=
  modify (fun w => set_trace (trace w ++ [ev]) w).

Definition console_log (text : string) : Prog unit := emit (ConsoleLog text).
Definition console_warn (text : string) : Prog unit := emit (ConsoleWarn text).
Definition console_error (e : JsError) : Prog unit := emit (ConsoleError e).

Definition await (p : PromiseId) : Prog Value :=
  Await p (fun v => Ret v).

Definition new_promise (k : PromiseKind) : Prog PromiseId :=
  Promise k (fun pid => Ret pid).

(** ** Calls into the host and the renderer *)

(** [element.requestFullscreen()], [document.exitFullscreen()],
    [renderer.present(scene)] and [renderer.supportsPresentation()]
    return a promise the host settles later. *)
Definition requestFullscreen : Prog PromiseId :=
  emit CalledRequestFullscreen ;; new_promise KRequestFullscreen.

Definition document_exitFullscreen : Prog PromiseId :=
  emit CalledExitFullscreen ;; new_promise KExitFullscreen.

Definition renderer_present (scene : SceneRef) : Prog PromiseId :=
  emit (CalledPresent scene) ;; new_promise KPresent.

Definition renderer_supportsPresentation : Prog PromiseId :=
  emit CalledSupportsPresentation ;; new_promise KSupportsPresentation.

(** [renderer.stopPresenting()] is synchronous and may throw; whether it
    does is the renderer's business ([stopPresenting_error]). *)
Definition renderer_stopPresenting : Prog unit :=
  emit CalledStopPresenting ;;
  Read (fun w =>
    match stopPresenting_error w with
    | Some e => Throw e
    | None => Ret tt
    end).

(** [shadowRoot.appendChild(node)]: a TypeError when the argument is not
    a node. *)
Definition shadowRoot_appendChild (v : Value) : Prog unit :=
  match v with
  | VElement n =>
      modify (fun w => set_shadowRoot_children (shadowRoot_children w ++ [n]) w)
  | _ => Throw (TypeError "parameter 1 is not of type 'Node'")
  end.

(** [anchor.setAttribute('href', value)] and [anchor.click()] on the two
    module-level anchors. *)
Definition get_anchor (which : AnchorId) (w : World) : Anchor :=
  match which with
  | QuickLookAnchor => quickLookAnchor w
  | ArViewerAnchor => arViewerAnchor w
  end.

Definition set_anchor (which : AnchorId) (a : Anchor) (w : World) : World :=
  match which with
  | QuickLookAnchor => set_quickLookAnchor a w
  | ArViewerAnchor => set_arViewerAnchor a w
  end.

Definition anchor_setAttribute_href (which : AnchorId) (value : string)
  : Prog unit :=
  modify (fun w =>
    set_anchor which (mkAnchor (anchor_rel (get_anchor which w)) (Some value)) w).

Definition anchor_click (which : AnchorId) : Prog unit :=
  Read (fun w => emit (Clicked which (get_anchor which w))).

(** [target.addEventListener(type, l)] does nothing when [l] is already
    registered; [removeEventListener] removes it. *)
Definition addEventListener_click (l : ClickListener)
  (ls : list ClickListener) : list ClickListener :=
  if existsb (ClickListener_eqb l) ls then ls else ls ++ [l].

Definition removeEventListener_click (l : ClickListener)
  (ls : list ClickListener) : list ClickListener :=
  filter (fun l' => negb (ClickListener_eqb l l')) ls.

(** ** The constructor and its full-screen-change observer (ar.ts 104-122) *)

Definition onFullscreenchange : Prog unit :=
  w <- get (fun w => w) ;;
  if negb (is_this_host (fullscreenElement w)) &&
     is_this_scene (presentedScene w)
  then
    Try renderer_stopPresenting
        (fun error =>
           console_warn "Unexpected error while stopping AR presentation" ;;
           console_error error)
        (Ret tt)
  else Ret tt.

(** The closure is new for every constructed element, so the document
    never finds it registered already. *)
Definition constructor : Prog unit :=
  modify (fun w =>
    set_fullscreenchange_listeners
      (fullscreenchange_listeners w ++ [OnFullscreenchange]) w).

(** ** The host settles promises and fires events *)

Definition listener_body (l : FullscreenListener) : Prog unit :=
  match l with
  | OnFullscreenchange => onFullscreenchange
  end.

(** The document runs every registered listener; what a listener throws
    is reported by the host and does not stop the others.  A listener
    is a synchronous function: it holds no promise. *)
Fixpoint dispatch (ls : list FullscreenListener) (w : World) : World :=
  match ls with
  | [] => w
  | l :: ls' => dispatch ls' (snd (fst (run (listener_body l) w [])))
  end.

Definition fire_fullscreenchange (w : World) : World :=
  dispatch (fullscreenchange_listeners w) w.

(** What the host does when a promise of this kind settles: a granted
    full-screen request puts the element in full screen, a completed
    exit clears it, and both fire [fullscreenchange]. *)
Definition platform_effect (k : PromiseKind) (s : Settlement) (w : World)
  : World :=
  match k, s with
  | KRequestFullscreen, Fulfilled _ =>
      fire_fullscreenchange (set_fullscreenElement (Some ThisHost) w)
  | KExitFullscreen, Fulfilled _ =>
      fire_fullscreenchange (set_fullscreenElement None w)
  | _, _ => w
  end.

(** A rejection nobody has attached a reaction to is reported as an
    unhandled rejection. *)
Definition report_unhandled (r : PromiseRec) (s : Settlement) (w : World)
  : World :=
  match s with
  | Rejected e =>
      if p_handled r then w else set_trace (trace w ++ [UnhandledRejection e]) w
  | Fulfilled _ => w
  end.

(** The host settles a pending promise of a call; a promise that is
    settled already stays as it is. *)
Definition settle (pid : PromiseId) (s : Settlement) (w : World) (st : Store)
  : World * Store :=
  match find_promise pid st with
  | Some r =>
      match p_state r with
      | Pending =>
          (platform_effect (p_kind r) s (report_unhandled r s w),
           replace_promise pid
             (fun r' => mkPromise (p_kind r') (Settled s) (p_handled r')) st)
      | Settled _ => (w, st)
      end
  | None => (w, st)
  end.

(** A call runs, and each time it is suspended the host settles the
    next promise of the schedule and lets it run again. *)
Fixpoint exec {A : Type} (sched : list (PromiseId * Settlement))
  (p : Prog A) (w : World) (st : Store) : Outcome A * World * Store :=
  match run p w st with
  | (Blocked pid k, w1, st1) =>
      match sched with
      | [] => (Blocked pid k, w1, st1)
      | (q, s) :: sched' =>
          exec sched' k (fst (settle q s w1 st1)) (snd (settle q s w1 st1))
      end
  | r => r
  end.

(** A call starts with no promise of its own. *)
Definition call {A : Type} (sched : list (PromiseId * Settlement))
  (p : Prog A) (w : World) : Outcome A * World * Store :=
  exec sched p w [].

(** ** Text functions of the language *)

(** [s.replace(pattern, replacement)] with a one-character string
    pattern: the first occurrence only. *)
Fixpoint String_replace (pattern : ascii) (replacement : string) (s : string)
  : string :=
  match s with
  | EmptyString => EmptyString
  | String c s' =>
      if Ascii.eqb c pattern then replacement ++ s'
      else String c (String_replace pattern replacement s')
  end.

(** A string of the language is held as its bytes in UTF-8, a
    surrogate code unit that has no partner as the three bytes
    [ED A0..BF 80..BF] of its own code point (a surrogate pair is the
    four bytes of the character it stands for).  The byte [ED] only
    ever starts a three-byte sequence, and its second byte is [A0] or
    more exactly when the sequence is a surrogate. *)
Fixpoint has_lone_surrogate (s : string) : bool :=
  match s with
  | String c (String d _ as s') =>
      (Nat.eqb (nat_of_ascii c) 237 && Nat.leb 160 (nat_of_ascii d)) ||
      has_lone_surrogate s'
  | _ => false
  end.

(** The text [encodeURIComponent] returns: it keeps the unreserved
    characters [A-Z a-z 0-9 - _ . ! ~ * ' ( )] and writes every other
    byte of the UTF-8 form as [%XX]. *)
Definition uri_unreserved (c : ascii) : bool :=
  let n := nat_of_ascii c in
  (Nat.leb 65 n && Nat.leb n 90) || (Nat.leb 97 n && Nat.leb n 122) ||
  (Nat.leb 48 n && Nat.leb n 57) ||
  existsb (Ascii.eqb c) (list_ascii_of_string "-_.!~*'()").

Definition hex_digit (n : nat) : ascii :=
  match String.get n "0123456789ABCDEF" with
  | Some c => c
  | None => "0"%char
  end.

Fixpoint encodeURIComponent (s : string) : string :=
  match s with
  | EmptyString => EmptyString
  | String c s' =>
      if uri_unreserved c then String c (encodeURIComponent s')
      else
        String "%"%char
          (String (hex_digit (nat_of_ascii c / 16))
             (String (hex_digit (nat_of_ascii c mod 16))
                (encodeURIComponent s')))
  end.

(** The call [encodeURIComponent(s)]: a URIError when [s] holds a
    surrogate without its partner, the encoded text otherwise. *)
Definition call_encodeURIComponent (s : string) : Prog string :=
  if has_lone_surrogate s then Throw (URIError "URI malformed")
  else Ret (encodeURIComponent s).

(** ** What the build and the browser provide *)

(** The four flags are imported from [../constants.js]; [URL] is the
    browser's class: [URL_new] is [new URL(s)] without a base, [None]
    when it throws the TypeError of an invalid URL; [URL_protocol] is
    the [protocol] getter (the scheme with its colon),
    [URL_set_protocol] the [protocol] setter and [URL_toString] the
    serializer. *)
Class Platform : Type := {
  IS_ANDROID : bool;
  IS_IOS : bool;
  IS_AR_QUICKLOOK_CANDIDATE : bool;
  IS_WEBXR_AR_CANDIDATE : bool;
  URL : Type;
  URL_new : string -> option URL;
  URL_protocol : URL -> string;
  URL_set_protocol : string -> URL -> URL;
  URL_toString : URL -> string
}.

Section ARMixin.

Context {P : Platform}.

(** ** openIOSARQuickLook and openARViewer (ar.ts 26-56) *)

(** The anchors are made when the module is loaded: the quick-look one
    gets [rel="ar"] (and an [img] child), the viewer one nothing. *)
Definition load_module : Prog unit :=
  modify (set_quickLookAnchor (mkAnchor (Some "ar") None)) ;;
  modify (set_arViewerAnchor (mkAnchor None None)).

Definition openIOSARQuickLook (usdzSrc : string) : Prog unit :=
  anchor_setAttribute_href QuickLookAnchor usdzSrc ;;
  anchor_click QuickLookAnchor.

Definition new_URL (s : string) : Prog URL :=
  match URL_new s with
  | Some u => Ret u
  | None => Throw (TypeError "Invalid URL")
  end.

Definition intent_uri (modelUrl : URL) (link title scheme : string) : string :=
  URL_toString modelUrl ++ "?link=" ++ link ++ "&title=" ++ title ++
  "#Intent;scheme=" ++ scheme ++
  ";package=com.google.ar.core;action=android.intent.action.VIEW;end;".

Definition openARViewer (gltfSrc title : string) : Prog unit :=
  location <- get location ;;
  modelUrl <- new_URL gltfSrc ;;
  link <- call_encodeURIComponent location ;;
  let scheme := String_replace ":"%char EmptyString (URL_protocol modelUrl) in
  title <- call_encodeURIComponent title ;;
  let modelUrl := URL_set_protocol "intent://" modelUrl in
  let intent := intent_uri modelUrl link title scheme in
  anchor_setAttribute_href ArViewerAnchor intent ;;
  anchor_click ArViewerAnchor.

(** ** The mixin (ar.ts 78-222) *)

Definition canActivateAR (w : World) : bool :=
  negb (ARMode_eqb (arMode w) NONE).

(** [enterARWithWebXR] (ar.ts 150-175) *)
Definition enterARWithWebXR : Prog unit :=
  console_log "Attempting to enter fullscreen and present in AR..." ;;
  Try (enterFullscreen <- requestFullscreen ;;
       Try (presenting <- renderer_present ThisScene ;;
            outputElement <- await presenting ;;
            shadowRoot_appendChild outputElement ;;
            _ <- await enterFullscreen ;;
            Ret tt)
           (fun error =>
              console_warn "Error while trying to present to AR" ;;
              console_error error ;;
              _ <- await enterFullscreen ;;
              current <- get fullscreenElement ;;
              if is_this_host current then
                console_warn "Exiting fullscreen under dire circumstances" ;;
                _ <- document_exitFullscreen ;;
                Ret tt
              else Ret tt)
           (Ret tt))
      (fun error =>
         console_error error ;;
         console_warn "AR will not activate without fullscreen permission")
      (Ret tt).

(** [activateAR] (ar.ts 130-148).  Awaiting the promise of the async
    [enterARWithWebXR] is running it in place. *)
Definition activateAR : Prog unit :=
  mode <- get arMode ;;
  match mode with
  | QUICK_LOOK =>
      usdzSrc <- get iosSrc ;;
      openIOSARQuickLook (js_String usdzSrc)
  | UNSTABLE_WEBXR =>
      enterARWithWebXR
  | AR_VIEWER =>
      _ <- requestFullscreen ;;
      gltfSrc <- get src ;;
      title <- get alt ;;
      openARViewer (js_String gltfSrc) (or_empty title)
  | NONE =>
      console_warn
        "No AR Mode can be activated. This is probably due to missing configuration or device capabilities"
  end.

(** [changedProperties.has(key)]: the map is given by its keys. *)
Definition has (key : string) (changedProperties : list string) : bool :=
  existsb (String.eqb key) changedProperties.

(** [update] (ar.ts 177-216); [super.update] renders the base element
    and touches nothing the mixin reads.  [this.unstableWebxr] is read
    before the query is awaited, [this.ar] and [this.iosSrc] after. *)
Definition update (changedProperties : list string) : Prog unit :=
  if negb (has "unstableWebxr" changedProperties) &&
     negb (has "iosSrc" changedProperties) &&
     negb (has "ar" changedProperties) &&
     negb (has "src" changedProperties) &&
     negb (has "alt" changedProperties)
  then Ret tt
  else
    optedIn <- get unstableWebxr ;;
    unstableWebxrCandidate <-
      (if optedIn && IS_WEBXR_AR_CANDIDATE
       then (query <- renderer_supportsPresentation ;;
             supported <- await query ;;
             Ret (truthy supported))
       else Ret false) ;;
    this <- get (fun w => w) ;;
    let arViewerCandidate := IS_ANDROID && ar this in
    let iosQuickLookCandidate :=
      IS_IOS && IS_AR_QUICKLOOK_CANDIDATE && truthy_string (iosSrc this) in
    let showArButton :=
      unstableWebxrCandidate || arViewerCandidate || iosQuickLookCandidate in
    (if unstableWebxrCandidate then modify (set_arMode UNSTABLE_WEBXR)
     else if arViewerCandidate then modify (set_arMode AR_VIEWER)
     else if iosQuickLookCandidate then modify (set_arMode QUICK_LOOK)
     else modify (set_arMode NONE)) ;;
    if showArButton then
      modify (set_arButton_display "block") ;;
      modify (fun w =>
        set_arButton_click
          (addEventListener_click ArButtonClickHandler (arButton_click w)) w)
    else
      modify (fun w =>
        set_arButton_click
          (removeEventListener_click ArButtonClickHandler (arButton_click w)) w) ;;
      modify (set_arButton_display "none").

End ARMixin.

(** ** A reference platform

    A browser whose URL class is the one of the URL standard, on the
    text the concrete runs give it.  A URL is its scheme and what its
    serialization has after the colon.  The standard's special schemes
    are [http], [https], [ws], [wss], [ftp] and [file].

    [new URL(s)] wants a scheme, which it puts in lower case.  For a
    special scheme other than [file] it then skips every slash, wants a
    host, which it puts in lower case, and gives an empty path the
    single slash; for [file] and for a scheme that is not special it
    keeps what follows the colon.  This is the parser of the standard
    on text without leading or trailing space whose host, if its scheme
    is special, is an ASCII domain name with no credentials and no
    default port, and whose path, query and fragment hold no dot
    segment, no backslash and nothing to percent-encode; a [file] URL
    is to be written with its three slashes.

    The [protocol] setter reads a scheme off the front of its argument
    and does nothing when there is none, and nothing when exactly one
    of the URL's scheme and the new one is special: the standard lets a
    special scheme be replaced by a special one only, and a scheme that
    is not special by one that is not.  (Replacing a special scheme by
    another one also drops a port that became the default, and is
    refused around [file]; the mixin sets [intent] alone.)

    The flags are free. *)
Module Reference.

Record BasicURL : Type := mkURL {
  url_scheme : string;
  url_rest : string
}.

Fixpoint split_colon (s : string) : option (string * string) :=
  match s with
  | EmptyString => None
  | String c s' =>
      if Ascii.eqb c ":"%char then Some (EmptyString, s')
      else
        match split_colon s' with
        | Some (a, b) => Some (String c a, b)
        | None => None
        end
  end.

Definition is_alpha (c : ascii) : bool :=
  let n := nat_of_ascii c in
  (Nat.leb 65 n && Nat.leb n 90) || (Nat.leb 97 n && Nat.leb n 122).

Definition is_scheme_char (c : ascii) : bool :=
  let n := nat_of_ascii c in
  is_alpha c || (Nat.leb 48 n && Nat.leb n 57) ||
  existsb (Ascii.eqb c) (list_ascii_of_string "+-.").

Definition valid_scheme (s : string) : bool :=
  match s with
  | EmptyString => false
  | String c s' => is_alpha c && forallb is_scheme_char (list_ascii_of_string s')
  end.

Definition lower (c : ascii) : ascii :=
  let n := nat_of_ascii c in
  if Nat.leb 65 n && Nat.leb n 90 then ascii_of_nat (n + 32) else c.

Fixpoint lowercase (s : string) : string :=
  match s with
  | EmptyString => EmptyString
  | String c s' => String (lower c) (lowercase s')
  end.

Definition is_special (scheme : string) : bool :=
  existsb (String.eqb scheme) ["http"; "https"; "ws"; "wss"; "ftp"; "file"].

(** A slash, or the backslash (code 92) that a special URL reads as
    one. *)
Definition is_slash (c : ascii) : bool :=
  Ascii.eqb c "/"%char || Nat.eqb (nat_of_ascii c) 92.

Fixpoint skip_slashes (s : string) : string :=
  match s with
  | EmptyString => EmptyString
  | String c s' => if is_slash c then skip_slashes s' else s
  end.

(** The authority ends at the first slash, question mark or number
    sign. *)
Definition ends_authority (c : ascii) : bool :=
  is_slash c || Ascii.eqb c "?"%char || Ascii.eqb c "#"%char.

Fixpoint split_authority (s : string) : string * string :=
  match s with
  | EmptyString => (EmptyString, EmptyString)
  | String c s' =>
      if ends_authority c then (EmptyString, s)
      else (String c (fst (split_authority s')), snd (split_authority s'))
  end.

(** What follows the host of a special URL: its path starts with a
    slash. *)
Definition rooted (tail : string) : string :=
  match tail with
  | String c tail' => if is_slash c then String "/"%char tail'
                      else String "/"%char tail
  | EmptyString => "/"
  end.

Definition basic_URL_new (s : string) : option BasicURL :=
  match split_colon s with
  | Some (scheme, rest) =>
      if valid_scheme scheme then
        let scheme := lowercase scheme in
        if is_special scheme && negb (String.eqb scheme "file") then
          match split_authority (skip_slashes rest) with
          | (EmptyString, _) => None
          | (host, tail) =>
              Some (mkURL scheme ("//" ++ lowercase host ++ rooted tail))
          end
        else Some (mkURL scheme rest)
      else None
  | None => None
  end.

Definition basic_protocol (u : BasicURL) : string :=
  url_scheme u ++ ":".

Definition basic_set_protocol (value : string) (u : BasicURL) : BasicURL :=
  match split_colon (value ++ ":") with
  | Some (scheme, _) =>
      if valid_scheme scheme then
        if Bool.eqb (is_special (url_scheme u)) (is_special (lowercase scheme))
        then mkURL (lowercase scheme) (url_rest u)
        else u
      else u
  | None => u
  end.

Definition basic_toString (u : BasicURL) : string :=
  url_scheme u ++ ":" ++ url_rest u.

Definition platform (android ios quicklook webxr : bool) : Platform :=
  {| IS_ANDROID := android;
     IS_IOS := ios;
     IS_AR_QUICKLOOK_CANDIDATE := quicklook;
     IS_WEBXR_AR_CANDIDATE := webxr;
     URL := BasicURL;
     URL_new := basic_URL_new;
     URL_protocol := basic_protocol;
     URL_set_protocol := basic_set_protocol;
     URL_toString := basic_toString |}.

(** An element as its class fields initialise it, in a document at
    [page], after the module is loaded and the constructor has run. *)
Definition fresh (page : string) : World :=
  mkWorld false false None None None
    NONE EmptyString [] []
    None [OnFullscreenchange] page
    None None
    (mkAnchor (Some "ar") None) (mkAnchor None None)
    [].

Definition with_inputs (ar' webxr' : bool) (iosSrc' src' alt' : option string)
  (w : World) : World :=
  mkWorld ar' webxr' iosSrc' src' alt'
    (arMode w) (arButton_display w) (arButton_click w) (shadowRoot_children w)
    (fullscreenElement w) (fullscreenchange_listeners w) (location w)
    (presentedScene w) (stopPresenting_error w)
    (quickLookAnchor w) (arViewerAnchor w)
    (trace w).

(** Builds and pages used in the concrete runs. *)
Definition android : Platform := platform true false false false.
Definition android_webxr : Platform := platform true false false true.
Definition ios : Platform := platform false true true false.
Definition desktop : Platform := platform false false false false.

Definition page : string := "https://shop.example/p?id=1".
Definition chair : string := "https://example.com/chair.gltf".

(** The one code unit U+D800, a surrogate without its partner. *)
Definition lone_surrogate : string :=
  String (ascii_of_nat 237)
    (String (ascii_of_nat 160) (String (ascii_of_nat 128) EmptyString)).

End Reference.

(** ** Vocabulary of the properties *)

(** The parts of what a run or a call returns. *)
Definition outcome {A : Type} (r : Outcome A * World * Store) : Outcome A :=
  fst (fst r).

Definition world_of {A : Type} (r : Outcome A * World * Store) : World :=
  snd (fst r).

Definition store_of {A : Type} (r : Outcome A * World * Store) : Store :=
  snd r.

(** The scheme of a URL has no colon in it. *)
Definition no_colon (s : string) : bool :=
  forallb (fun c => negb (Ascii.eqb c ":"%char)) (list_ascii_of_string s).

(** The precedence as the specification words it, over the seven
    capability inputs it lists: opted in to unstable-webxr, the
    renderer reports presentation support, Android, AR opt-in, iOS,
    quick-look candidate, an iOS asset reference is present. *)
Definition claimed_mode
  (optedIn supported android arOptIn ios quicklook iosAsset : bool) : ARMode :=
  if optedIn && supported then UNSTABLE_WEBXR
  else if android && arOptIn then AR_VIEWER
  else if ios && quicklook && iosAsset then QUICK_LOOK
  else NONE.

(** One of the five properties [update] tracks has changed. *)
Definition tracked_change (changedProperties : list string) : bool :=
  has "unstableWebxr" changedProperties || has "iosSrc" changedProperties ||
  has "ar" changedProperties || has "src" changedProperties ||
  has "alt" changedProperties.

(** The AR button is shown ([display: block]) and its click handler is
    registered. *)
Definition arButton_visible (w : World) : Prop :=
  arButton_display w = "block".

Definition arButton_bound (w : World) : Prop :=
  In ArButtonClickHandler (arButton_click w).

Definition affordance_invariant (w : World) : Prop :=
  (arButton_visible w <-> arMode w <> NONE) /\
  (arButton_bound w <-> arButton_visible w) /\
  (canActivateAR w = true <-> arMode w <> NONE).

(** What [update] does once the capability query is answered (or was
    not made): it ends, and with the affordance invariant. *)
Definition completes_with_invariant (r : Outcome unit * World * Store) : Prop :=
  forall w1 st1, r = (Done tt, w1, st1) -> affordance_invariant w1.

(** How a failed presentation leaves the element [w'] and the promises
    [st'] of the activation that started from [w]: nothing was attached
    to the shadow root, the last call made is
    [document.exitFullscreen()], its promise (the third of the
    activation) is pending, and once the host completes that exit the
    document has no full-screen element. *)
Definition exited_fullscreen_unattached (w w' : World) (st' : Store) : Prop :=
  shadowRoot_children w' = shadowRoot_children w /\
  (exists before,
     trace w' =
       before ++
       [ConsoleWarn "Exiting fullscreen under dire circumstances";
        CalledExitFullscreen]) /\
  find_promise 2 st' = Some (mkPromise KExitFullscreen Pending false) /\
  fullscreenElement (fst (settle 2 (Fulfilled VUndefined) w' st')) = None.

(** A run ended ([final]) or is suspended with continuation [k] on a
    promise that is not settled ([waits_on]). *)
Definition final {A : Type} (r : Outcome A * World * Store) : Prop :=
  match outcome r with
  | Blocked _ _ => False
  | _ => True
  end.

Definition waits_on {A : Type} (r : Outcome A * World * Store) (k : Prog A)
  : Prop :=
  exists pid, outcome r = Blocked pid k /\ promise_state pid (store_of r) = Pending.

(** [Within I Q n k]: in whatever world and with whatever promises
    satisfying [I] the program [k] is run, it ends with [Q], or stays
    suspended as it is, or moves to a suspension from which at most
    [n - 1] further ones remain; suspended, its promises satisfy [I]. *)
Fixpoint Within {A : Type} (I : Store -> Prop)
  (Q : Outcome A * World * Store -> Prop) (n : nat) (k : Prog A) {struct n}
  : Prop :=
  forall w st, I st ->
    (final (run k w st) /\ Q (run k w st)) \/
    (waits_on (run k w st) k /\ I (store_of (run k w st))) \/
    match n with
    | 0 => False
    | S n' =>
        exists k',
          waits_on (run k w st) k' /\ I (store_of (run k w st)) /\
          Within I Q n' k'
    end.

Definition ends_or_waits {A : Type} (Q : Outcome A * World * Store -> Prop)
  (r : Outcome A * World * Store) : Prop :=
  (final r /\ Q r) \/ exists k, waits_on r k.

(** The promise of the call is resolved. *)
Definition resolved (r : Outcome unit * World * Store) : Prop :=
  exists w' st', r = (Done tt, w', st').

(** The promises of a suspended [update]: the capability query; those
    of a suspended [enterARWithWebXR]: the full-screen request and the
    presentation. *)
Definition query_store (st : Store) : Prop :=
  exists s h, st = [(0, mkPromise KSupportsPresentation s h)].

Definition webxr_store (st : Store) : Prop :=
  exists sp hp sf hf,
    st = [(1, mkPromise KPresent sp hp);
          (0, mkPromise KRequestFullscreen sf hf)].

(** ** Frames

    [keeps f p]: no write of the program [p] changes what [f] reads
    from the world. *)
Inductive keeps {B : Type} (f : World -> B) : forall A : Type, Prog A -> Prop :=
| keeps_Ret : forall (A : Type) (a : A), keeps f (Ret a)
| keeps_Throw : forall (A : Type) (e : JsError), keeps f (@Throw A e)
| keeps_Read : forall (A : Type) (k : World -> Prog A),
    (forall w, keeps f (k w)) -> keeps f (Read k)
| keeps_Mutate : forall (A : Type) (g : World -> World) (k : Prog A),
    (forall w, f (g w) = f w) -> keeps f k -> keeps f (Mutate g k)
| keeps_Promise : forall (A : Type) (kind : PromiseKind)
    (k : PromiseId -> Prog A),
    (forall pid, keeps f (k pid)) -> keeps f (Promise kind k)
| keeps_Await : forall (A : Type) (pid : PromiseId) (k : Value -> Prog A),
    (forall v, keeps f (k v)) -> keeps f (Await pid k)
| keeps_Try : forall (A : Type) (body : Prog unit)
    (handler : JsError -> Prog unit) (k : Prog A),
    keeps f body -> (forall e, keeps f (handler e)) -> keeps f k ->
    keeps f (Try body handler k).

(** What [f] reads is neither the trace nor the full-screen element,
    the two things the host changes when it settles a promise. *)
Definition host_blind {B : Type} (f : World -> B) : Prop :=
  (forall t w, f (set_trace t w) = f w) /\
  (forall e w, f (set_fullscreenElement e w) = f w).

(** The element's own properties with the document's observers; the
    selected mode with the AR button; the shadow root with the two
    anchors. *)
Definition inputs_of (w : World) :=
  (ar w, unstableWebxr w, iosSrc w, src w, alt w,
   fullscreenchange_listeners w).

Definition selection_of (w : World) :=
  (arMode w, arButton_display w, arButton_click w).

Definition surfaces_of (w : World) :=
  (shadowRoot_children w, quickLookAnchor w, arViewerAnchor w).

(** * The environment mixin (src/features/environment.js)

    The element's background and lighting: [update] reacts to changed
    properties, [setEnvironmentImage] loads textures asynchronously and
    drops them when the background image has changed meanwhile,
    [setEnvironmentColor] installs a plain background.  The scene, the
    renderer and the texture utilities are collaborators: what the
    mixin asks of them is recorded in [effects]. *)
Module Environment.

Section Mixin.

(** JavaScript numbers are only copied here, never computed with. *)
Variable Number : Type.

Definition Texture : Type := nat.

(** A colour parsed by [new Color(text)], or [c.lerpHSL(target, 0.5)]. *)
Inductive Color : Type :=
| Parsed (text : string)
| LerpHSL (c target : Color).

Definition DEFAULT_BACKGROUND_COLOR : string := "#ffffff".
Definition WHITE : Color := Parsed "#ffffff".

(** [scene.background]: null, a skybox texture (which has [dispose]) or
    a colour (which has not). *)
Inductive Background : Type :=
| NoBackground
| Skybox (t : Texture)
| Plain (c : Color).

Inductive IlluminationRole : Type :=
| Primary
| Secondary.

Inductive Effect : Type :=
| GenerateEnvironmentTextures (url : string) (pmrem : bool)
| GenerateDefaultEnvironmentMap (pmrem : bool)
| Dispose (t : Texture)
| ModelApplyEnvironmentMap (m : option Texture)
| EnvironmentChanged
| ConfigureStageLighting (intensity : Number) (role : IlluminationRole)
| NeedsRender.

Record State : Type := mkState {
  (* properties of the element *)
  backgroundImage : option string;
  backgroundColor : option string;
  experimentalPmrem : bool;
  shadowIntensity : Number;
  stageLightIntensity : Number;
  exposure : Number;
  (* private state of the mixin *)
  currentEnvironmentMap : option Texture;
  (* the scene and the renderer *)
  scene_background : Background;
  scene_shadow_intensity : Number;
  shadowLight_color : Color;
  renderer_exposure : Number;
  textureUtils : bool;
  defaultEnvironmentMap : bool -> Texture;
  effects : list Effect
}.

Definition set_currentEnvironmentMap (m : option Texture) (s : State) : State :=
  mkState (backgroundImage s) (backgroundColor s) (experimentalPmrem s)
    (shadowIntensity s) (stageLightIntensity s) (exposure s)
    m
    (scene_background s) (scene_shadow_intensity s) (shadowLight_color s)
    (renderer_exposure s) (textureUtils s) (defaultEnvironmentMap s)
    (effects s).

Definition set_scene_background (b : Background) (s : State) : State :=
  mkState (backgroundImage s) (backgroundColor s) (experimentalPmrem s)
    (shadowIntensity s) (stageLightIntensity s) (exposure s)
    (currentEnvironmentMap s)
    b (scene_shadow_intensity s) (shadowLight_color s)
    (renderer_exposure s) (textureUtils s) (defaultEnvironmentMap s)
    (effects s).

Definition set_scene_shadow_intensity (n : Number) (s : State) : State :=
  mkState (backgroundImage s) (backgroundColor s) (experimentalPmrem s)
    (shadowIntensity s) (stageLightIntensity s) (exposure s)
    (currentEnvironmentMap s)
    (scene_background s) n (shadowLight_color s)
    (renderer_exposure s) (textureUtils s) (defaultEnvironmentMap s)
    (effects s).

Definition set_shadowLight_color (c : Color) (s : State) : State :=
  mkState (backgroundImage s) (backgroundColor s) (experimentalPmrem s)
    (shadowIntensity s) (stageLightIntensity s) (exposure s)
    (currentEnvironmentMap s)
    (scene_background s) (scene_shadow_intensity s) c
    (renderer_exposure s) (textureUtils s) (defaultEnvironmentMap s)
    (effects s).

Definition set_renderer_exposure (n : Number) (s : State) : State :=
  mkState (backgroundImage s) (backgroundColor s) (experimentalPmrem s)
    (shadowIntensity s) (stageLightIntensity s) (exposure s)
    (currentEnvironmentMap s)
    (scene_background s) (scene_shadow_intensity s) (shadowLight_color s)
    n (textureUtils s) (defaultEnvironmentMap s)
    (effects s).

Definition effect (ev : Effect) (s : State) : State :=
  mkState (backgroundImage s) (backgroundColor s) (experimentalPmrem s)
    (shadowIntensity s) (stageLightIntensity s) (exposure s)
    (currentEnvironmentMap s)
    (scene_background s) (scene_shadow_intensity s) (shadowLight_color s)
    (renderer_exposure s) (textureUtils s) (defaultEnvironmentMap s)
    (effects s ++ [ev]).

(** [value && value !== 'null'] on a string property. *)
Definition given (value : option string) : bool :=
  truthy_string value && negb (String.eqb (or_empty value) "null").

Definition hasBackgroundImage (s : State) : bool := given (backgroundImage s).
Definition hasBackgroundColor (s : State) : bool := given (backgroundColor s).

Definition needsRender (s : State) : State := effect NeedsRender s.

Definition updateShadow (s : State) : State :=
  needsRender (set_scene_shadow_intensity (shadowIntensity s) s).

Definition updateToneMapping (s : State) : State :=
  needsRender (set_renderer_exposure (exposure s) s).

Definition updateStageLighting (s : State) : State :=
  let illuminationRole :=
    if experimentalPmrem s then Secondary else Primary in
  effect (ConfigureStageLighting (stageLightIntensity s) illuminationRole) s.

Definition setShadowLightColor (color : Color) (s : State) : State :=
  set_shadowLight_color (LerpHSL color WHITE) s.

Definition deallocateTextures (s : State) : State :=
  let s1 :=
    match scene_background s with
    | Skybox t => effect (Dispose t) s
    | _ => s
    end in
  match currentEnvironmentMap s1 with
  | Some m => set_currentEnvironmentMap None (effect (Dispose m) s1)
  | None => s1
  end.

Definition applyEnvironmentMap (environmentMap : option Texture) (s : State)
  : State :=
  let s1 := set_currentEnvironmentMap environmentMap s in
  let s2 := effect (ModelApplyEnvironmentMap (currentEnvironmentMap s1)) s1 in
  let s3 := effect EnvironmentChanged s2 in
  needsRender (updateStageLighting s3).

Definition setEnvironmentColor (color : string) (s : State) : State :=
  if negb (textureUtils s) then s
  else
    let s1 := deallocateTextures s in
    let parsedColor := Parsed color in
    let s2 := set_scene_background (Plain parsedColor) s1 in
    let s3 := setShadowLightColor parsedColor s2 in
    let s4 := effect (GenerateDefaultEnvironmentMap (experimentalPmrem s3)) s3 in
    let environmentMap := defaultEnvironmentMap s4 (experimentalPmrem s4) in
    applyEnvironmentMap (Some environmentMap) s4.

(** [setEnvironmentImage] up to its [await]: [None] when it returned
    at once, the requested url when it waits for the textures. *)
Definition setEnvironmentImage_request (url : string) (s : State)
  : State * option string :=
  if negb (textureUtils s) then (s, None)
  else
    (effect (GenerateEnvironmentTextures url (experimentalPmrem s)) s,
     Some url).

(** [setEnvironmentImage] after its [await]: [textures] is what the
    promise was fulfilled with, [None] for a falsy value, else the
    skybox and the environment map. *)
Definition setEnvironmentImage_resume (url : string)
  (textures : option (Texture * Texture)) (s : State) : State :=
  if negb
       (match backgroundImage s with
        | Some current => String.eqb url current
        | None => false
        end)
  then s
  else
    let s1 := deallocateTextures s in
    match textures with
    | None => applyEnvironmentMap None s1
    | Some (skybox, environmentMap) =>
        let s2 := set_scene_background (Skybox skybox) s1 in
        let s3 := setShadowLightColor WHITE s2 in
        applyEnvironmentMap (Some environmentMap) s3
    end.

(** [update]; the call of the async [setEnvironmentImage] is not
    awaited: its request is returned with the state. *)
Definition update (changedProperties : list string) (s : State)
  : State * option string :=
  let s1 := if has "shadowIntensity" changedProperties
            then updateShadow s else s in
  let s2 := if has "exposure" changedProperties
            then updateToneMapping s1 else s1 in
  let s3 := if has "stageLightIntensity" changedProperties
            then updateStageLighting s2 else s2 in
  if negb (has "backgroundImage" changedProperties) &&
     negb (has "backgroundColor" changedProperties) &&
     negb (has "experimentalPmrem" changedProperties)
  then (s3, None)
  else if hasBackgroundImage s3
  then setEnvironmentImage_request (or_empty (backgroundImage s3)) s3
  else if hasBackgroundColor s3
  then (setEnvironmentColor (or_empty (backgroundColor s3)) s3, None)
  else (setEnvironmentColor DEFAULT_BACKGROUND_COLOR s3, None).

Definition firstUpdated (changedProperties : list string) (s : State) : State :=
  if negb (has "backgroundImage" changedProperties) &&
     negb (has "backgroundColor" changedProperties)
  then setEnvironmentColor DEFAULT_BACKGROUND_COLOR s
  else s.

Definition onModelLoad (s : State) : State :=
  match currentEnvironmentMap s with
  | Some m => applyEnvironmentMap (Some m) s
  | None => s
  end.

(** The background, the environment map and the shadow light: what the
    environment of the scene consists of. *)
Definition environment_of (s : State) :=
  (scene_background s, currentEnvironmentMap s, shadowLight_color s).

End Mixin.

(** A scene with a skybox and an environment map in place, used in the
    concrete runs. *)
Definition studio : State nat :=
  mkState (Some "sky.hdr") (Some "#336699") false 0 1 1
    (Some 7)
    (Skybox 3) 0 (Parsed "#000000") 1 true
    (fun pmrem : bool => if pmrem then 12 else 11)
    [].

(** The element as its properties default, no background image among
    them, over a scene whose environment map is in place. *)
Definition showroom : State nat :=
  mkState None None false 0 1 1
    (Some 7)
    (Plain (Parsed "#ffffff")) 0 (Parsed "#000000") 1 true
    (fun pmrem : bool => if pmrem then 12 else 11)
    [].

Definition without_textureUtils (s : State nat) : State nat :=
  mkState (backgroundImage s) (backgroundColor s) (experimentalPmrem s)
    (shadowIntensity s) (stageLightIntensity s) (exposure s)
    (currentEnvironmentMap s)
    (scene_background s) (scene_shadow_intensity s) (shadowLight_color s)
    (renderer_exposure s) false (defaultEnvironmentMap s)
    (effects s).

End Environment.

(** The characters that structure the query and the fragment of the
    intent URI. *)
Definition uri_delimiter (c : ascii) : bool :=
  existsb (Ascii.eqb c) (list_ascii_of_string "&#?=/:; ").

(** * Properties *)

Lemma snoc_snoc {A : Type} (l : list A) (a b : A) :
  (l ++ [a]) ++ [b] = l ++ [a; b].
Proof. now rewrite <- app_assoc. Qed.

(** ** The full-screen-change observer *)

Lemma run_onFullscreenchange (w : World) (st : Store) :
  run onFullscreenchange w st =
    (Done tt,
     if negb (is_this_host (fullscreenElement w)) &&
        is_this_scene (presentedScene w)
     then
       match stopPresenting_error w with
       | None => set_trace (trace w ++ [CalledStopPresenting]) w
       | Some e =>
           set_trace
             (trace w ++
              [CalledStopPresenting;
               ConsoleWarn "Unexpected error while stopping AR presentation";
               ConsoleError e]) w
       end
     else w,
     st).
Proof.
  cbn.
  destruct (negb (is_this_host (fullscreenElement w)) &&
            is_this_scene (presentedScene w)); cbn; [|reflexivity].
  destruct (stopPresenting_error w) as [e|]; cbn; [|reflexivity].
  unfold set_trace; cbn. now rewrite <- !app_assoc.
Qed.

(** C9: the constructor registers the observer once; when the
    [fullscreenchange] event fires while the document's full-screen
    element is not this host and the renderer still presents this host's
    scene, the observer calls [stopPresenting] once and an error thrown
    by that call is logged (a warning, then the error) and goes no
    further; in every other case the observer leaves the world as it
    is.  The observer always returns normally. *)
Theorem C9_fullscreenchange_observer (w : World) :
  call [] constructor w =
    (Done tt,
     set_fullscreenchange_listeners
       (fullscreenchange_listeners w ++ [OnFullscreenchange]) w,
     []) /\
  dispatch [OnFullscreenchange] w = world_of (call [] onFullscreenchange w) /\
  call [] onFullscreenchange w =
    (Done tt,
     if negb (is_this_host (fullscreenElement w)) &&
        is_this_scene (presentedScene w)
     then
       match stopPresenting_error w with
       | None => set_trace (trace w ++ [CalledStopPresenting]) w
       | Some e =>
           set_trace
             (trace w ++
              [CalledStopPresenting;
               ConsoleWarn "Unexpected error while stopping AR presentation";
               ConsoleError e]) w
       end
     else w,
     []).
Proof.
  assert (E : call [] onFullscreenchange w = run onFullscreenchange w []).
  { unfold call. cbn [exec]. now rewrite run_onFullscreenchange. }
  split; [reflexivity|]. split.
  - rewrite E. reflexivity.
  - rewrite E. apply run_onFullscreenchange.
Qed.

(** While the element is in full screen the observers do nothing, and
    no observer ever changes the full-screen element. *)
Lemma dispatch_in_fullscreen (ls : list FullscreenListener) (w : World) :
  fullscreenElement w = Some ThisHost -> dispatch ls w = w.
Proof.
  intros H. induction ls as [|[] ls IH]; cbn [dispatch listener_body].
  - reflexivity.
  - rewrite run_onFullscreenchange, H. cbn. exact IH.
Qed.

Lemma fullscreenElement_dispatch (ls : list FullscreenListener) (w : World) :
  fullscreenElement (dispatch ls w) = fullscreenElement w.
Proof.
  revert w. induction ls as [|[] ls IH]; intros w;
    cbn [dispatch listener_body]; [reflexivity|].
  rewrite IH, run_onFullscreenchange. cbn [fst snd].
  destruct (negb (is_this_host (fullscreenElement w)) &&
            is_this_scene (presentedScene w)); [|reflexivity].
  destruct (stopPresenting_error w); reflexivity.
Qed.

(** ** Suspended programs under any schedule *)

Lemma exec_final {A : Type} (sched : list (PromiseId * Settlement))
  (p : Prog A) (w : World) (st : Store) :
  final (run p w st) -> exec sched p w st = run p w st.
Proof.
  unfold final, outcome.
  destruct sched; cbn; destruct (run p w st) as [[[a|e|pid k] w1] st1]; cbn;
    intros F; try reflexivity; destruct F.
Qed.

Lemma exec_waits {A : Type} (q : PromiseId) (s : Settlement)
  (sched : list (PromiseId * Settlement)) (p k : Prog A) (w : World)
  (st : Store) :
  waits_on (run p w st) k ->
  exec ((q, s) :: sched) p w st =
  exec sched k
    (fst (settle q s (world_of (run p w st)) (store_of (run p w st))))
    (snd (settle q s (world_of (run p w st)) (store_of (run p w st)))).
Proof.
  intros [pid [E _]]. cbn [exec].
  destruct (run p w st) as [[o w1] st1]; cbn in *. subst o. reflexivity.
Qed.

Lemma exec_nil_waits {A : Type} (p k : Prog A) (w : World) (st : Store) :
  waits_on (run p w st) k -> exec [] p w st = run p w st.
Proof.
  intros [pid [E _]]. cbn [exec].
  destruct (run p w st) as [[o w1] st1]; cbn in *. subst o. reflexivity.
Qed.

(** One step of a schedule, from a first run that is known. *)
Lemma exec_step {A : Type} (q : PromiseId) (s : Settlement)
  (sched : list (PromiseId * Settlement)) (p k : Prog A) (pid : PromiseId)
  (w w1 : World) (st st1 : Store) :
  run p w st = (Blocked pid k, w1, st1) ->
  exec ((q, s) :: sched) p w st =
  exec sched k (fst (settle q s w1 st1)) (snd (settle q s w1 st1)).
Proof. intros E. cbn [exec]. now rewrite E. Qed.

(** The host settles the promise: in full screen the observers do
    nothing. *)
Ltac settle_now :=
  match goal with
  | |- context [settle ?q ?s ?w ?st] =>
      let r := eval cbn in (settle q s w st) in
      change (settle q s w st) with r
  end;
  rewrite ?dispatch_in_fullscreen by reflexivity;
  cbn [fst snd].

Ltac run_to_await := erewrite exec_step by (cbn; reflexivity).

(** Whatever the host settles and in whatever order, a program that is
    [Within I Q n] ends with [Q] or is still waiting for a promise. *)
Lemma exec_Within {A : Type} (I : Store -> Prop)
  (Q : Outcome A * World * Store -> Prop)
  (HI : forall q s w st, I st -> I (snd (settle q s w st)))
  (sched : list (PromiseId * Settlement)) :
  forall (n : nat) (k : Prog A) (w : World) (st : Store),
    Within I Q n k -> I st -> ends_or_waits Q (exec sched k w st).
Proof.
  induction sched as [|[q s] sched IH]; intros n k w st H Hst.
  - destruct n as [|n]; destruct (H w st Hst) as [F|[[W _]|X]].
    + left. now rewrite exec_final by apply F.
    + right. exists k. now rewrite (@exec_nil_waits _ _ _ _ _ W).
    + destruct X.
    + left. now rewrite exec_final by apply F.
    + right. exists k. now rewrite (@exec_nil_waits _ _ _ _ _ W).
    + destruct X as [k' [W _]]. right. exists k'.
      now rewrite (@exec_nil_waits _ _ _ _ _ W).
  - destruct n as [|n]; destruct (H w st Hst) as [F|[[W Hi]|X]].
    + left. now rewrite exec_final by apply F.
    + rewrite (@exec_waits _ _ _ _ _ _ _ _ W). apply (IH 0); auto.
    + destruct X.
    + left. now rewrite exec_final by apply F.
    + rewrite (@exec_waits _ _ _ _ _ _ _ _ W). apply (IH (S n)); auto.
    + destruct X as [k' [W [Hi K]]]. rewrite (@exec_waits _ _ _ _ _ _ _ _ W).
      apply (IH n); auto.
Qed.

(** The same from a first run that is already known. *)
Lemma exec_from_run {A : Type} (I : Store -> Prop)
  (Q : Outcome A * World * Store -> Prop)
  (HI : forall q s w st, I st -> I (snd (settle q s w st)))
  (n : nat) (sched : list (PromiseId * Settlement)) (p k : Prog A)
  (w : World) (st : Store) :
  waits_on (run p w st) k -> I (store_of (run p w st)) -> Within I Q n k ->
  ends_or_waits Q (exec sched p w st).
Proof.
  intros W Hi K. destruct sched as [|[q s] sched].
  - right. exists k. now rewrite (@exec_nil_waits _ _ _ _ _ W).
  - rewrite (@exec_waits _ _ _ _ _ _ _ _ W).
    eapply (@exec_Within _ I Q HI); eauto.
Qed.

(** Settling a promise keeps the shape of the store. *)
Lemma settle_query_store (q : PromiseId) (s : Settlement) (w : World)
  (st : Store) : query_store st -> query_store (snd (settle q s w st)).
Proof.
  intros [s0 [h ->]]. unfold settle.
  destruct q as [|q]; cbn; [|now exists s0, h].
  destruct s0; cbn; eexists; eexists; reflexivity.
Qed.

Lemma settle_webxr_store (q : PromiseId) (s : Settlement) (w : World)
  (st : Store) : webxr_store st -> webxr_store (snd (settle q s w st)).
Proof.
  intros [sp [hp [sf [hf ->]]]]. unfold settle.
  destruct q as [|[|q]]; cbn.
  - destruct sf; cbn; do 4 eexists; reflexivity.
  - destruct sp; cbn; do 4 eexists; reflexivity.
  - do 4 eexists; reflexivity.
Qed.

Lemma String_replace_scheme (s : string) :
  no_colon s = true -> String_replace ":"%char EmptyString (s ++ ":") = s.
Proof.
  unfold no_colon. induction s as [|c s IH]; cbn; [reflexivity|].
  destruct (Ascii.eqb c ":"%char); cbn; [discriminate|].
  intros H. now rewrite IH.
Qed.

Section Activation.

Context {P : Platform}.

(** ** The two anchor handoffs *)

(** Loading the module leaves the quick-look anchor with [rel="ar"]. *)
Lemma load_module_quickLookAnchor (w : World) :
  anchor_rel (quickLookAnchor (world_of (call [] load_module w))) = Some "ar".
Proof. reflexivity. Qed.

(** C8: in quick-look mode with an iOS asset URL, activation sets the
    [href] of the one quick-look anchor (the module-level anchor with
    [rel="ar"]) to exactly that URL, clicks it and does nothing else:
    no other call is made, no promise is obtained, the viewer anchor is
    untouched, and the promise of [activateAR] is resolved at once. *)
Theorem C8_quick_look_targets_ios_asset (w : World) (usdz : string) :
  arMode w = QUICK_LOOK ->
  iosSrc w = Some usdz ->
  anchor_rel (quickLookAnchor w) = Some "ar" ->
  exists w',
    call [] activateAR w = (Done tt, w', []) /\
    quickLookAnchor w' = mkAnchor (Some "ar") (Some usdz) /\
    trace w' =
      trace w ++ [Clicked QuickLookAnchor (mkAnchor (Some "ar") (Some usdz))] /\
    arViewerAnchor w' = arViewerAnchor w.
Proof.
  intros Hmode Hsrc Hrel. eexists. unfold call. cbn. rewrite Hmode. cbn.
  rewrite Hsrc. cbn. rewrite Hrel. repeat split; reflexivity.
Qed.


End Activation.

Section ModeSelection.

Context {P : Platform}.

Lemma tracked_change_guard (changed : list string) :
  tracked_change changed = true ->
  negb (has "unstableWebxr" changed) && negb (has "iosSrc" changed) &&
  negb (has "ar" changed) && negb (has "src" changed) &&
  negb (has "alt" changed) = false.
Proof.
  unfold tracked_change.
  destruct (has "unstableWebxr" changed), (has "iosSrc" changed),
    (has "ar" changed), (has "src" changed), (has "alt" changed);
    cbn; congruence.
Qed.

(** C1 (amended): a recomputation by [update] ends with exactly the
    mode of the precedence: [unstable-webxr] when the element is opted
    in, the build is a WebXR AR candidate and the renderer's answer is
    truthy; otherwise [ar-viewer] on Android with the AR opt-in;
    otherwise [quick-look] on iOS, as a quick-look candidate, with an
    iOS asset reference; otherwise [none].  The renderer is asked only
    when the first two conditions of the first step hold. *)
Theorem C1_mode_by_precedence (w : World) (changed : list string)
  (supported : Value) :
  tracked_change changed = true ->
  let webxr :=
    unstableWebxr w && IS_WEBXR_AR_CANDIDATE && truthy supported in
  let viewer := IS_ANDROID && ar w in
  let quick :=
    IS_IOS && IS_AR_QUICKLOOK_CANDIDATE && truthy_string (iosSrc w) in
  exists w' st',
    call [(0, Fulfilled supported)] (update changed) w = (Done tt, w', st') /\
    (arMode w' = UNSTABLE_WEBXR <-> webxr = true) /\
    (arMode w' = AR_VIEWER <-> webxr = false /\ viewer = true) /\
    (arMode w' = QUICK_LOOK <->
       webxr = false /\ viewer = false /\ quick = true) /\
    (arMode w' = NONE <-> webxr = false /\ viewer = false /\ quick = false).
Proof.
  intros Hch webxr viewer quick. subst webxr viewer quick.
  unfold call, update. rewrite (tracked_change_guard _ Hch).
  destruct (unstableWebxr w) eqn:Ho, IS_WEBXR_AR_CANDIDATE eqn:Hc;
    cbn; rewrite ?Ho; cbn;
    destruct (truthy supported), IS_ANDROID, (ar w), IS_IOS,
      IS_AR_QUICKLOOK_CANDIDATE, (truthy_string (iosSrc w));
    cbn; do 2 eexists; (split; [reflexivity|]); cbn;
    repeat split; intros; try congruence;
    repeat match goal with H : _ /\ _ |- _ => destruct H end; congruence.
Qed.

Lemma ClickListener_eqb_eq (a b : ClickListener) :
  ClickListener_eqb a b = true <-> a = b.
Proof.
  destruct a as [|n], b as [|m]; cbn; split; intros H;
    try reflexivity; try discriminate.
  - apply Nat.eqb_eq in H. now subst.
  - injection H as ->. apply Nat.eqb_refl.
Qed.

Lemma In_addEventListener_click (l : ClickListener) (ls : list ClickListener) :
  In l (addEventListener_click l ls).
Proof.
  unfold addEventListener_click.
  destruct (existsb (ClickListener_eqb l) ls) eqn:E.
  - apply existsb_exists in E. destruct E as [x [Hin Hx]].
    apply ClickListener_eqb_eq in Hx. now subst.
  - apply in_or_app. right. now left.
Qed.

Lemma not_In_removeEventListener_click (l : ClickListener)
  (ls : list ClickListener) :
  ~ In l (removeEventListener_click l ls).
Proof.
  unfold removeEventListener_click. intros H.
  apply filter_In in H. destruct H as [_ H].
  assert (E : ClickListener_eqb l l = true) by now apply ClickListener_eqb_eq.
  rewrite E in H. discriminate H.
Qed.

Lemma affordance_shown (m : ARMode) (w : World) :
  m <> NONE ->
  affordance_invariant
    (set_arButton_click
       (addEventListener_click ArButtonClickHandler (arButton_click w))
       (set_arButton_display "block" (set_arMode m w))).
Proof.
  intros Hm. unfold affordance_invariant, arButton_visible, arButton_bound,
    canActivateAR.
  cbn. repeat split; intros; try assumption; try reflexivity.
  - apply In_addEventListener_click.
  - destruct m; cbn; congruence.
Qed.

Lemma affordance_hidden (w : World) :
  affordance_invariant
    (set_arButton_display "none"
       (set_arButton_click
          (removeEventListener_click ArButtonClickHandler (arButton_click w))
          (set_arMode NONE w))).
Proof.
  unfold affordance_invariant, arButton_visible, arButton_bound,
    canActivateAR.
  cbn. repeat split; intros H; try discriminate H; try congruence.
  - now apply not_In_removeEventListener_click in H.
Qed.

Ltac affordance :=
  match goal with
  | |- affordance_invariant
         (set_arButton_click _ (set_arButton_display _ (set_arMode ?m ?W))) =>
      apply (@affordance_shown m W); discriminate
  | |- affordance_invariant
         (set_arButton_display _ (set_arButton_click _ (set_arMode _ ?W))) =>
      apply (affordance_hidden W)
  end.

(** C2: whenever a call of [update] that recomputes the mode completes,
    under any schedule of the host, the AR button is shown exactly when
    the selected mode is not [none], its click handler is registered
    exactly when it is shown, and [canActivateAR] is true exactly when
    the mode is not [none]. *)
Theorem C2_affordance_tracks_mode (w w' : World) (st' : Store)
  (changed : list string) (sched : list (PromiseId * Settlement)) :
  tracked_change changed = true ->
  call sched (update changed) w = (Done tt, w', st') ->
  affordance_invariant w'.
Proof.
  intros Hch Hrun. unfold call in Hrun.
  assert (H : ends_or_waits completes_with_invariant
                (exec sched (update changed) w [])).
  { unfold update. rewrite (tracked_change_guard _ Hch).
    destruct (unstableWebxr w && IS_WEBXR_AR_CANDIDATE) eqn:Hq.
    - eapply (@exec_from_run _ query_store _ settle_query_store 0).
      + unfold waits_on, outcome, store_of. cbn. rewrite Hq. cbn.
        eexists. split; reflexivity.
      + cbn. rewrite Hq. cbn. do 2 eexists. reflexivity.
      + intros w0 st [s [h ->]]. unfold completes_with_invariant.
        destruct s as [|[v|e]].
        * right; left. split; [|do 2 eexists; reflexivity].
          exists 0. split; reflexivity.
        * left. cbn.
          destruct (truthy v), IS_ANDROID, (ar w0), IS_IOS,
            IS_AR_QUICKLOOK_CANDIDATE, (truthy_string (iosSrc w0)); cbn;
            (split; [exact I|]); intros w1 st1 E1; injection E1 as <- _;
            affordance.
        * left. cbn. split; [exact I|]. intros w1 st1 E1. discriminate E1.
    - left. unfold completes_with_invariant.
      rewrite exec_final; cbn; rewrite Hq; cbn.
      + destruct IS_ANDROID, (ar w), IS_IOS,
          IS_AR_QUICKLOOK_CANDIDATE, (truthy_string (iosSrc w)); cbn;
          (split; [exact I|]); intros w1 st1 E1; injection E1 as <- _;
          affordance.
      + destruct IS_ANDROID, (ar w), IS_IOS,
          IS_AR_QUICKLOOK_CANDIDATE, (truthy_string (iosSrc w)); exact I. }
  destruct H as [[_ HQ]|[k [pid [Hk _]]]].
  - exact (HQ _ _ Hrun).
  - rewrite Hrun in Hk. discriminate Hk.
Qed.

(** C5 (amended): a rejection of the capability query is not caught:
    [update] rejects with the same error and the mode, the button's
    display and its click handlers stay as they were.  The remaining
    precedence steps are taken when the query is fulfilled with a falsy
    value. *)
Theorem C5_query_rejection_propagates (w : World) (changed : list string)
  (e : JsError) :
  tracked_change changed = true ->
  unstableWebxr w && IS_WEBXR_AR_CANDIDATE = true ->
  (exists w' st',
     call [(0, Rejected e)] (update changed) w = (Failed e, w', st') /\
     arMode w' = arMode w /\
     arButton_display w' = arButton_display w /\
     arButton_click w' = arButton_click w) /\
  (forall v, truthy v = false ->
     exists w' st',
       call [(0, Fulfilled v)] (update changed) w = (Done tt, w', st') /\
       arMode w' =
         if IS_ANDROID && ar w then AR_VIEWER
         else if IS_IOS && IS_AR_QUICKLOOK_CANDIDATE &&
                 truthy_string (iosSrc w) then QUICK_LOOK
         else NONE).
Proof.
  intros Hch Hq. unfold call, update. rewrite (tracked_change_guard _ Hch).
  split.
  - cbn. rewrite Hq. cbn. do 2 eexists. repeat split; reflexivity.
  - intros v Hv. cbn. rewrite Hq. cbn. rewrite Hv.
    destruct IS_ANDROID, (ar w), IS_IOS, IS_AR_QUICKLOOK_CANDIDATE,
      (truthy_string (iosSrc w)); cbn; do 2 eexists; split; reflexivity.
Qed.

End ModeSelection.

Section WebXR.

Context {P : Platform}.

(** C4: when [present] rejects and the full-screen request was granted
    on this host, whichever of the two settles first, the activation
    ends normally having called [document.exitFullscreen()] last and
    having attached no output element to the shadow root; once the host
    completes the exit the document is out of full screen. *)
Theorem C4_present_rejection_exits_fullscreen (w : World) (e : JsError)
  (granted : Value) :
  (exists w' st',
     call [(0, Fulfilled granted); (1, Rejected e)] enterARWithWebXR w =
       (Done tt, w', st') /\
     exited_fullscreen_unattached w w' st') /\
  (exists w' st',
     call [(1, Rejected e); (0, Fulfilled granted)] enterARWithWebXR w =
       (Done tt, w', st') /\
     exited_fullscreen_unattached w w' st').
Proof.
  unfold call, exited_fullscreen_unattached.
  split; run_to_await; settle_now; run_to_await; settle_now; cbn;
    do 2 eexists; (split; [reflexivity|]); cbn;
    (split; [reflexivity|]);
    (split; [eexists; apply snoc_snoc|]);
    (split; [reflexivity|]);
    now rewrite fullscreenElement_dispatch.
Qed.

Ltac resolved_now :=
  left; split; [exact I | do 2 eexists; reflexivity].

Ltac still_waiting pid :=
  right; left;
  split; [exists pid; split; reflexivity | do 4 eexists; reflexivity].

(** Suspended on the full-screen request, in the [try] block or in its
    [catch] block, the activation ends once the request is settled. *)
Ltac after_present :=
  let w1 := fresh "w" in
  let sp := fresh "sp" in
  let hp := fresh "hp" in
  let sf := fresh "sf" in
  let hf := fresh "hf" in
  intros w1 ? [sp [hp [sf [hf ->]]]];
  destruct sf as [|[?|?]];
  [ still_waiting 0
  | first [ resolved_now
          | cbn; destruct (is_this_host (fullscreenElement w1)); resolved_now ]
  | resolved_now ].

Lemma enterARWithWebXR_Within (w : World) :
  exists k,
    waits_on (run enterARWithWebXR w []) k /\
    webxr_store (store_of (run enterARWithWebXR w [])) /\
    Within webxr_store resolved 1 k.
Proof.
  eexists. split; [exists 1; split; reflexivity|].
  split; [do 4 eexists; reflexivity|].
  intros w0 st [sp [hp [sf [hf ->]]]].
  destruct sp as [|[v|e]].
  - still_waiting 1.
  - destruct v as [| |n]; destruct sf as [|[v'|e']];
      try resolved_now;
      try (cbn; destruct (is_this_host (fullscreenElement w0)); resolved_now);
      right; right; eexists;
      (split; [exists 0; split; reflexivity|]);
      (split; [do 4 eexists; reflexivity|]);
      after_present.
  - destruct sf as [|[v'|e']];
      try resolved_now;
      try (cbn; destruct (is_this_host (fullscreenElement w0)); resolved_now);
      right; right; eexists;
      (split; [exists 0; split; reflexivity|]);
      (split; [do 4 eexists; reflexivity|]);
      after_present.
Qed.

Lemma exec_same_run {A : Type} (sched : list (PromiseId * Settlement))
  (p p' : Prog A) (w : World) (st : Store) :
  run p w st = run p' w st -> exec sched p w st = exec sched p' w st.
Proof. intros E. destruct sched as [|[q s] sched]; cbn [exec]; now rewrite E. Qed.

Ltac resolved_at_last :=
  cbn;
  first [ do 2 eexists; reflexivity
        | match goal with
          | |- context [is_this_host (fullscreenElement ?w)] =>
              destruct (is_this_host (fullscreenElement w))
          end;
          do 2 eexists; reflexivity ].

Lemma enterARWithWebXR_resolved (w : World) (s0 s1 : Settlement) :
  resolved (exec [(0, s0); (1, s1)] enterARWithWebXR w []) /\
  resolved (exec [(1, s1); (0, s0)] enterARWithWebXR w []).
Proof.
  unfold resolved.
  destruct s0 as [v0|e0], s1 as [[| |n1]|e1];
    (split; run_to_await; settle_now; run_to_await; settle_now;
     resolved_at_last).
Qed.

Lemma ends_or_waits_not_failed (r : Outcome unit * World * Store) :
  ends_or_waits resolved r -> forall e, outcome r <> Failed e.
Proof.
  intros [[_ [w' [st' ->]]]|[k [pid [E _]]]] e; [discriminate|].
  rewrite E. discriminate.
Qed.

(** Every rejection of the full-screen request (promise 0) or of the
    presentation (promise 1) is logged with [console.error]. *)
Ltac logged :=
  cbn;
  try match goal with
      | |- context [is_this_host (fullscreenElement ?w)] =>
          destruct (is_this_host (fullscreenElement w)); cbn
      end;
  rewrite ?in_app_iff; cbn; tauto.

Lemma enterARWithWebXR_logs_rejections (w : World) (s0 s1 : Settlement)
  (e : JsError) :
  s0 = Rejected e \/ s1 = Rejected e ->
  In (ConsoleError e)
    (trace (world_of (exec [(0, s0); (1, s1)] enterARWithWebXR w []))) /\
  In (ConsoleError e)
    (trace (world_of (exec [(1, s1); (0, s0)] enterARWithWebXR w []))).
Proof.
  unfold world_of.
  destruct s0 as [v0|e0], s1 as [[| |n1]|e1];
    (intros [H|H]; try discriminate H; injection H as ->);
    (split; run_to_await; settle_now; run_to_await; settle_now; logged).
Qed.

(** C3 (amended): in every state in which, when the mode is ar-viewer,
    the primary asset reference parses as a URL and neither the page
    location nor the title holds a lone surrogate, the promise of
    [activateAR] never rejects, whatever the host settles and in
    whatever order: the call is resolved, or it is still waiting for a
    promise that is not settled.  Outside unstable-webxr mode it is
    resolved in its first turn; in every mode it is resolved once the
    full-screen request and the presentation are settled, in either
    order and whether they are granted or rejected; and in
    unstable-webxr mode the error of every one of the two that is
    rejected is logged with [console.error]. *)
Theorem C3_activateAR_never_rejects (w : World) :
  (arMode w = AR_VIEWER ->
   URL_new (js_String (src w)) <> None /\
   has_lone_surrogate (location w) = false /\
   has_lone_surrogate (or_empty (alt w)) = false) ->
  (forall sched,
     ends_or_waits resolved (call sched activateAR w) /\
     forall e, outcome (call sched activateAR w) <> Failed e) /\
  (arMode w <> UNSTABLE_WEBXR ->
   forall sched, resolved (call sched activateAR w)) /\
  (forall s0 s1,
     resolved (call [(0, s0); (1, s1)] activateAR w) /\
     resolved (call [(1, s1); (0, s0)] activateAR w)) /\
  (arMode w = UNSTABLE_WEBXR ->
   forall s0 s1 e,
     s0 = Rejected e \/ s1 = Rejected e ->
     In (ConsoleError e)
       (trace (world_of (call [(0, s0); (1, s1)] activateAR w))) /\
     In (ConsoleError e)
       (trace (world_of (call [(1, s1); (0, s0)] activateAR w)))).
Proof.
  intros Hsrc.
  assert (Hfirst : arMode w <> UNSTABLE_WEBXR ->
            final (run activateAR w []) /\ resolved (run activateAR w [])).
  { intros Hm. unfold final, resolved, outcome. cbn.
    destruct (arMode w) eqn:Hmode; cbn.
    - split; [exact I|]. do 2 eexists. reflexivity.
    - destruct (Hsrc eq_refl) as [Hu [Hl Ha]].
      unfold new_URL, call_encodeURIComponent.
      destruct (URL_new (js_String (src w))) as [u|];
        [|now destruct Hu].
      cbn. rewrite Hl. cbn. rewrite Ha. cbn.
      split; [exact I|]. do 2 eexists. reflexivity.
    - now destruct Hm.
    - split; [exact I|]. do 2 eexists. reflexivity. }
  assert (Hwebxr : arMode w = UNSTABLE_WEBXR ->
            run activateAR w [] = run enterARWithWebXR w []).
  { intros Hm. cbn [activateAR bind get run]. now rewrite Hm. }
  assert (Hany : forall sched,
            ends_or_waits resolved (call sched activateAR w)).
  { intros sched. unfold call.
    destruct (arMode w) eqn:Hmode.
    1, 2, 4: left; rewrite exec_final; apply Hfirst; congruence.
    destruct (enterARWithWebXR_Within w) as [k [W [Hi K]]].
    rewrite <- (Hwebxr eq_refl) in W, Hi.
    exact (@exec_from_run _ webxr_store resolved settle_webxr_store 1
             sched _ k w [] W Hi K). }
  split; [|split; [|split]].
  - intros sched. split; [apply Hany|].
    apply ends_or_waits_not_failed, Hany.
  - intros Hm sched. unfold call. rewrite exec_final; now apply Hfirst.
  - intros s0 s1. unfold call.
    destruct (arMode w) eqn:Hmode.
    1, 2, 4: split; rewrite exec_final; apply Hfirst; congruence.
    rewrite !(exec_same_run _ _ _ _ _ (Hwebxr eq_refl)).
    apply enterARWithWebXR_resolved.
  - intros Hm s0 s1 e He. unfold call.
    rewrite !(exec_same_run _ _ _ _ _ (Hwebxr Hm)).
    now apply enterARWithWebXR_logs_rejections.
Qed.

End WebXR.

(** * Concrete runs *)

Import Reference.

(** C1, counterexample: the element is opted in to unstable-webxr and
    the renderer would answer that it supports presentation, but the
    build is not a WebXR AR candidate: the renderer is not asked and the
    mode is [none], where the precedence over the seven listed inputs
    gives [unstable-webxr]. *)
Lemma C1_counterexample :
  arMode
    (world_of
       (call [(0, Fulfilled (VBool true))] (@update desktop ["unstableWebxr"])
          (with_inputs false true None None None (fresh page)))) <>
  claimed_mode true true false false false false false.
Proof. cbn. discriminate. Qed.

Lemma C1_witness :
  tracked_change ["ar"] = true /\
  arMode
    (world_of
       (call [(0, Fulfilled (VBool false))] (@update android_webxr ["ar"])
          (with_inputs true true None (Some chair) None (fresh page)))) =
  AR_VIEWER.
Proof.
  split; [reflexivity|].
  destruct (@C1_mode_by_precedence android_webxr
              (with_inputs true true None (Some chair) None (fresh page))
              ["ar"] (VBool false) eq_refl)
    as [w' [st' [E [_ [[_ H] _]]]]].
  rewrite E. apply H. split; reflexivity.
Defined.

Lemma C2_witness :
  tracked_change ["unstableWebxr"] = true /\
  call [(0, Fulfilled (VBool true))] (@update android_webxr ["unstableWebxr"])
    (with_inputs false true None None None (fresh page)) =
  (Done tt,
   world_of
     (call [(0, Fulfilled (VBool true))]
        (@update android_webxr ["unstableWebxr"])
        (with_inputs false true None None None (fresh page))),
   store_of
     (call [(0, Fulfilled (VBool true))]
        (@update android_webxr ["unstableWebxr"])
        (with_inputs false true None None None (fresh page)))) /\
  affordance_invariant
    (world_of
       (call [(0, Fulfilled (VBool true))]
          (@update android_webxr ["unstableWebxr"])
          (with_inputs false true None None None (fresh page)))).
Proof.
  split; [reflexivity|]. split; [reflexivity|].
  eapply (@C2_affordance_tracks_mode android_webxr
            (with_inputs false true None None None (fresh page)) _ _
            ["unstableWebxr"] [(0, Fulfilled (VBool true))]);
    reflexivity.
Defined.

(** C3, counterexample: on Android with the AR opt-in and no primary
    asset reference, [update] selects ar-viewer, and [activateAR] then
    rejects with the TypeError of [new URL]; so it does with a
    reference that is not an absolute URL; and with an asset URL and a
    title that holds a lone surrogate it rejects with the URIError of
    [encodeURIComponent].  In unstable-webxr mode, when [present]
    yields an element and the full-screen request is then refused, the
    activation ends with that element attached to the shadow root. *)
Lemma C3_counterexample :
  arMode
    (world_of
       (call [] (@update android ["ar"])
          (with_inputs true false None None None (fresh page)))) = AR_VIEWER /\
  outcome
    (call [] (@activateAR android)
       (world_of
          (call [] (@update android ["ar"])
             (with_inputs true false None None None (fresh page))))) =
  Failed (TypeError "Invalid URL") /\
  outcome
    (call [] (@activateAR android)
       (world_of
          (call [] (@update android ["ar"])
             (with_inputs true false None (Some "chair.gltf") None
                (fresh page))))) =
  Failed (TypeError "Invalid URL") /\
  outcome
    (call [] (@activateAR android)
       (world_of
          (call [] (@update android ["ar"])
             (with_inputs true false None (Some chair) (Some lone_surrogate)
                (fresh page))))) =
  Failed (URIError "URI malformed") /\
  shadowRoot_children
    (world_of
       (call [(1, Fulfilled (VElement 5)); (0, Rejected (HostError "denied"))]
          (@activateAR android_webxr)
          (set_arMode UNSTABLE_WEBXR
             (with_inputs false true None None None (fresh page))))) = [5].
Proof. repeat split; reflexivity. Qed.

Lemma C3_witness :
  (arMode
     (set_arMode AR_VIEWER
        (with_inputs true false None (Some chair) (Some "A chair")
           (fresh page))) =
   AR_VIEWER ->
   @URL_new android
     (js_String
        (src (set_arMode AR_VIEWER
                (with_inputs true false None (Some chair) (Some "A chair")
                   (fresh page))))) <>
   None /\
   has_lone_surrogate
     (location
        (set_arMode AR_VIEWER
           (with_inputs true false None (Some chair) (Some "A chair")
              (fresh page)))) = false /\
   has_lone_surrogate
     (or_empty
        (alt (set_arMode AR_VIEWER
                (with_inputs true false None (Some chair) (Some "A chair")
                   (fresh page))))) = false) /\
  resolved
    (call [] (@activateAR android)
       (set_arMode AR_VIEWER
          (with_inputs true false None (Some chair) (Some "A chair")
             (fresh page)))).
Proof.
  assert (H : arMode
     (set_arMode AR_VIEWER
        (with_inputs true false None (Some chair) (Some "A chair")
           (fresh page))) =
   AR_VIEWER ->
   @URL_new android
     (js_String
        (src (set_arMode AR_VIEWER
                (with_inputs true false None (Some chair) (Some "A chair")
                   (fresh page))))) <>
   None /\
   has_lone_surrogate
     (location
        (set_arMode AR_VIEWER
           (with_inputs true false None (Some chair) (Some "A chair")
              (fresh page)))) = false /\
   has_lone_surrogate
     (or_empty
        (alt (set_arMode AR_VIEWER
                (with_inputs true false None (Some chair) (Some "A chair")
                   (fresh page))))) = false)
    by (intros _; split; [discriminate|split; reflexivity]).
  split; [exact H|].
  destruct (@C3_activateAR_never_rejects android _ H) as [_ [R _]].
  apply R. discriminate.
Defined.

(** C5, counterexample: on Android with the AR opt-in, opted in to
    unstable-webxr on a WebXR AR candidate, the capability query
    rejects: [update] rejects with that error and the mode stays
    [none], where falling through the precedence gives ar-viewer. *)
Lemma C5_counterexample :
  outcome
    (call [(0, Rejected (HostError "no XR device"))]
       (@update android_webxr ["ar"])
       (with_inputs true true None None None (fresh page))) =
  Failed (HostError "no XR device") /\
  arMode
    (world_of
       (call [(0, Rejected (HostError "no XR device"))]
          (@update android_webxr ["ar"])
          (with_inputs true true None None None (fresh page)))) = NONE /\
  claimed_mode true false true true false false false = AR_VIEWER.
Proof. repeat split; reflexivity. Qed.

Lemma C5_witness :
  tracked_change ["ar"] = true /\
  unstableWebxr (with_inputs true true None None None (fresh page)) &&
  @IS_WEBXR_AR_CANDIDATE android_webxr = true /\
  exists w' st',
    call [(0, Rejected (HostError "no XR device"))]
      (@update android_webxr ["ar"])
      (with_inputs true true None None None (fresh page)) =
    (Failed (HostError "no XR device"), w', st') /\
    arMode w' = NONE.
Proof.
  split; [reflexivity|]. split; [reflexivity|].
  destruct (@C5_query_rejection_propagates android_webxr
              (with_inputs true true None None None (fresh page)) ["ar"]
              (HostError "no XR device") eq_refl eq_refl)
    as [[w' [st' [E [Hm _]]]] _].
  exists w', st'. split; [exact E|exact Hm].
Defined.

(** C6, the failing run: the element is opted in to unstable-webxr on a
    WebXR AR candidate and [update] asks the renderer; while the query
    is outstanding the page clears the opt-in, and the [update] this
    triggers ends with mode [none] and the button hidden; then the
    query is fulfilled with true and the first [update] resumes: it
    applies [unstable-webxr] and shows the button, with the opt-in
    false. *)
Theorem C6_stale_query_result_applied :
  exists k w1 st1,
    run (@update android_webxr ["unstableWebxr"])
      (with_inputs false true None None None (fresh page)) [] =
      (Blocked 0 k, w1, st1) /\
    let later :=
      call [] (@update android_webxr ["unstableWebxr"])
        (set_unstableWebxr false w1) in
    outcome later = Done tt /\
    arMode (world_of later) = NONE /\
    arButton_display (world_of later) = "none" /\
    let resumed :=
      run k (fst (settle 0 (Fulfilled (VBool true)) (world_of later) st1))
        (snd (settle 0 (Fulfilled (VBool true)) (world_of later) st1)) in
    outcome resumed = Done tt /\
    unstableWebxr (world_of resumed) = false /\
    arMode (world_of resumed) = UNSTABLE_WEBXR /\
    arButton_display (world_of resumed) = "block".
Proof. do 3 eexists. split; [reflexivity|]. cbn. repeat split; reflexivity. Qed.

(** C7, the failing run: on Android, in ar-viewer mode, with the
    primary asset at [https://example.com/chair.gltf], the page at
    [https://shop.example/p?id=1] and the title [A chair], activation
    requests full screen and clicks the viewer anchor with an [href]
    that starts with [https://], not with [intent://]: the [protocol]
    setter leaves a URL whose scheme is special as it is when it is
    given [intent://].  The rest of the URI is as the format has it.
    For an asset whose scheme is not special the same code builds the
    intent URI. *)
Theorem C7_special_scheme_is_not_replaced :
  outcome
    (call [] (@activateAR android)
       (set_arMode AR_VIEWER
          (with_inputs true false None (Some chair) (Some "A chair")
             (fresh page)))) = Done tt /\
  anchor_href
    (arViewerAnchor
       (world_of
          (call [] (@activateAR android)
             (set_arMode AR_VIEWER
                (with_inputs true false None (Some chair) (Some "A chair")
                   (fresh page)))))) =
  Some
    "https://example.com/chair.gltf?link=https%3A%2F%2Fshop.example%2Fp%3Fid%3D1&title=A%20chair#Intent;scheme=https;package=com.google.ar.core;action=android.intent.action.VIEW;end;" /\
  trace
    (world_of
       (call [] (@activateAR android)
          (set_arMode AR_VIEWER
             (with_inputs true false None (Some chair) (Some "A chair")
                (fresh page))))) =
  [CalledRequestFullscreen;
   Clicked ArViewerAnchor
     (arViewerAnchor
        (world_of
           (call [] (@activateAR android)
              (set_arMode AR_VIEWER
                 (with_inputs true false None (Some chair) (Some "A chair")
                    (fresh page))))))] /\
  anchor_href
    (arViewerAnchor
       (world_of
          (call [] (@activateAR android)
             (set_arMode AR_VIEWER
                (with_inputs true false None
                   (Some "content://models/chair.gltf") None
                   (fresh page)))))) =
  Some
    "intent://models/chair.gltf?link=https%3A%2F%2Fshop.example%2Fp%3Fid%3D1&title=#Intent;scheme=content;package=com.google.ar.core;action=android.intent.action.VIEW;end;".
Proof. split; [|split; [|split]]; vm_compute; reflexivity. Qed.

Lemma C8_witness :
  arMode
    (set_arMode QUICK_LOOK
       (with_inputs false false (Some "model.usdz") None None (fresh page))) =
  QUICK_LOOK /\
  iosSrc
    (set_arMode QUICK_LOOK
       (with_inputs false false (Some "model.usdz") None None (fresh page))) =
  Some "model.usdz" /\
  anchor_rel
    (quickLookAnchor
       (set_arMode QUICK_LOOK
          (with_inputs false false (Some "model.usdz") None None (fresh page)))) =
  Some "ar" /\
  exists w',
    call [] (@activateAR ios)
      (set_arMode QUICK_LOOK
         (with_inputs false false (Some "model.usdz") None None (fresh page))) =
    (Done tt, w', []) /\
    quickLookAnchor w' = mkAnchor (Some "ar") (Some "model.usdz").
Proof.
  do 3 (split; [reflexivity|]).
  destruct (@C8_quick_look_targets_ios_asset ios
              (set_arMode QUICK_LOOK
                 (with_inputs false false (Some "model.usdz") None None
                    (fresh page)))
              "model.usdz" eq_refl eq_refl eq_refl)
    as [w' [E [Ha _]]].
  exists w'. split; [exact E|exact Ha].
Defined.



(** * Further properties of the mixin *)

(** ** What a program leaves alone *)

Lemma keeps_bind {B A C : Type} (f : World -> B) (p : Prog A)
  (k : A -> Prog C) :
  keeps f p -> (forall a, keeps f (k a)) -> keeps f (bind p k).
Proof.
  intros H Hk. induction H; cbn; try (constructor; auto).
  apply Hk.
Qed.

Lemma keeps_run {B A : Type} (f : World -> B) (p : Prog A) :
  keeps f p ->
  forall w st,
    f (world_of (run p w st)) = f w /\
    forall pid k, outcome (run p w st) = Blocked pid k -> keeps f k.
Proof.
  unfold world_of, outcome.
  induction 1 as [A a|A e|A k Hk IH|A g k Hg Hk IH|A kind k Hk IH
                  |A pid k Hk IH|A body h k Hb IHb Hh IHh Hk IHk];
    intros w st; cbn.
  - split; [reflexivity|discriminate].
  - split; [reflexivity|discriminate].
  - apply IH.
  - destruct (IH (g w) st) as [E K]. split; [now rewrite E|exact K].
  - apply IH.
  - destruct (promise_state pid st) as [|[v|e]]; cbn.
    + split; [reflexivity|]. intros pid' k' E. injection E as _ <-.
      now constructor.
    + apply IH.
    + split; [reflexivity|discriminate].
  - destruct (IHb w st) as [Eb Kb].
    destruct (run body w st) as [[[[]|e|pid body'] w1] st1]; cbn in *.
    + destruct (IHk w1 st1) as [E K]. split; [now rewrite E|exact K].
    + destruct (IHh e w1 st1) as [Eh Kh].
      destruct (run (h e) w1 st1) as [[[[]|e'|pid h'] w2] st2]; cbn in *.
      * destruct (IHk w2 st2) as [E K].
        split; [now rewrite E, Eh|exact K].
      * split; [now rewrite Eh|discriminate].
      * split; [now rewrite Eh|]. intros pid' k' E. injection E as _ <-.
        constructor; [now apply (Kh pid)| intros; constructor |exact Hk].
    + split; [exact Eb|]. intros pid' k' E. injection E as _ <-.
      constructor; [now apply (Kb pid)|exact Hh|exact Hk].
Qed.

(** The observers write the trace and nothing else. *)
Lemma dispatch_trace_only (ls : list FullscreenListener) (w : World) :
  dispatch ls w = set_trace (trace (dispatch ls w)) w.
Proof.
  revert w. induction ls as [|[] ls IH]; intros w;
    cbn [dispatch listener_body].
  - now destruct w.
  - rewrite run_onFullscreenchange. cbn [fst snd].
    destruct (negb (is_this_host (fullscreenElement w)) &&
              is_this_scene (presentedScene w)); [|apply IH].
    destruct (stopPresenting_error w); rewrite IH; reflexivity.
Qed.

Lemma host_blind_settle {B : Type} (f : World -> B) :
  host_blind f ->
  forall q s w st, f (fst (settle q s w st)) = f w.
Proof.
  intros [Ht Hf] q s w st. unfold settle.
  destruct (find_promise q st) as [r|]; [|reflexivity].
  destruct (p_state r); [|reflexivity]. cbn [fst].
  assert (Hr : f (report_unhandled r s w) = f w).
  { unfold report_unhandled. destruct s; [reflexivity|].
    destruct (p_handled r); [reflexivity|apply Ht]. }
  unfold platform_effect, fire_fullscreenchange.
  destruct (p_kind r), s; try exact Hr;
    rewrite dispatch_trace_only, Ht, Hf; exact Hr.
Qed.

(** Under any schedule, a call keeps what all its writes keep and the
    host does not touch. *)
Lemma keeps_exec {B A : Type} (f : World -> B) :
  host_blind f ->
  forall (sched : list (PromiseId * Settlement)) (p : Prog A) (w : World)
         (st : Store),
    keeps f p -> f (world_of (exec sched p w st)) = f w.
Proof.
  intros Hf sched. induction sched as [|[q s] sched IH]; intros p w st Hp;
    destruct (keeps_run Hp w st) as [E K]; cbn [exec];
    unfold world_of, outcome in *;
    destruct (run p w st) as [[[a|e|pid k] w1] st1]; cbn in *; try exact E.
  rewrite IH by now apply (K pid).
  now rewrite host_blind_settle.
Qed.

Ltac keeps_step :=
  match goal with
  | |- keeps _ (bind _ _) => apply keeps_bind
  | |- keeps _ (match ?x with _ => _ end) => destruct x
  | |- forall _, _ => intro
  | |- _ = _ => reflexivity
  | |- keeps _ _ => constructor
  end.

Section Frames.

Context {P : Platform}.

Lemma keeps_enterARWithWebXR {B : Type} (f : World -> B) :
  (forall t w, f (set_trace t w) = f w) ->
  (forall c w, f (set_shadowRoot_children c w) = f w) ->
  keeps f enterARWithWebXR.
Proof.
  intros Ht Hc.
  unfold enterARWithWebXR, requestFullscreen, renderer_present,
    document_exitFullscreen, shadowRoot_appendChild, console_log,
    console_warn, console_error, emit, modify, new_promise, await, get.
  repeat first [ apply Ht | apply Hc | keeps_step ].
Qed.

Lemma keeps_activateAR {B : Type} (f : World -> B) :
  (forall t w, f (set_trace t w) = f w) ->
  (forall c w, f (set_shadowRoot_children c w) = f w) ->
  (forall a w, f (set_quickLookAnchor a w) = f w) ->
  (forall a w, f (set_arViewerAnchor a w) = f w) ->
  keeps f activateAR.
Proof.
  intros Ht Hc Hq Hv.
  unfold activateAR, get. apply keeps_bind; [repeat keeps_step|].
  intros [| | |].
  - unfold openIOSARQuickLook, anchor_setAttribute_href, anchor_click,
      emit, modify, get.
    repeat first [ apply Ht | apply Hq | keeps_step ].
  - unfold requestFullscreen, openARViewer, new_URL, call_encodeURIComponent,
      anchor_setAttribute_href, anchor_click, emit, modify, new_promise, get.
    repeat first [ apply Ht | apply Hv | keeps_step ].
  - now apply keeps_enterARWithWebXR.
  - unfold console_warn, emit, modify.
    repeat first [ apply Ht | keeps_step ].
Qed.

Lemma keeps_update {B : Type} (f : World -> B) (changed : list string) :
  (forall t w, f (set_trace t w) = f w) ->
  (forall m w, f (set_arMode m w) = f w) ->
  (forall d w, f (set_arButton_display d w) = f w) ->
  (forall l w, f (set_arButton_click l w) = f w) ->
  keeps f (update changed).
Proof.
  intros Ht Hm Hd Hl.
  unfold update, renderer_supportsPresentation, emit, modify, new_promise,
    await, get.
  repeat first [ apply Ht | apply Hm | apply Hd | apply Hl | keeps_step ].
Qed.

(** Under any schedule, and whether it is resolved, rejected or still
    waiting, [activateAR] changes neither the selected mode, nor the AR
    button, nor the element's properties, nor the document's observers:
    activating twice starts from the same selection. *)
Theorem activateAR_keeps_selection (w : World)
  (sched : list (PromiseId * Settlement)) :
  selection_of (world_of (call sched activateAR w)) = selection_of w /\
  inputs_of (world_of (call sched activateAR w)) = inputs_of w.
Proof.
  unfold call. split; apply keeps_exec;
    try (split; reflexivity); apply keeps_activateAR; reflexivity.
Qed.

(** Under any schedule, [update] writes only the mode and the AR
    button: the element's properties, the document's observers, the
    shadow root and the two anchors stay as they were. *)
Theorem update_keeps_inputs_and_surfaces (w : World) (changed : list string)
  (sched : list (PromiseId * Settlement)) :
  inputs_of (world_of (call sched (update changed) w)) = inputs_of w /\
  surfaces_of (world_of (call sched (update changed) w)) = surfaces_of w.
Proof.
  unfold call. split; apply keeps_exec;
    try (split; reflexivity); apply keeps_update; reflexivity.
Qed.

End Frames.

(** ** More on [update] *)

Section Recomputation.

Context {P : Platform}.

Lemma untracked_change_guard (changed : list string) :
  tracked_change changed = false ->
  negb (has "unstableWebxr" changed) && negb (has "iosSrc" changed) &&
  negb (has "ar" changed) && negb (has "src" changed) &&
  negb (has "alt" changed) = true.
Proof.
  unfold tracked_change.
  destruct (has "unstableWebxr" changed), (has "iosSrc" changed),
    (has "ar" changed), (has "src" changed), (has "alt" changed);
    cbn; congruence.
Qed.

(** When none of the five tracked properties is among the changed
    ones, [update] returns at once: the world is untouched, the
    renderer is not asked and no promise is made. *)
Theorem update_ignores_untracked_changes (w : World) (changed : list string)
  (sched : list (PromiseId * Settlement)) :
  tracked_change changed = false ->
  call sched (update changed) w = (Done tt, w, []).
Proof.
  intros H. unfold call, update. rewrite (untracked_change_guard _ H).
  now destruct sched.
Qed.

(** A recomputation makes one call at most: it asks the renderer
    whether it supports presentation exactly when the element is opted
    in to unstable-webxr and the build is a WebXR AR candidate, and it
    logs nothing, whether the answer is a value or a rejection. *)
Theorem update_asks_renderer_only_when_opted_in (w : World)
  (changed : list string) (answer : Settlement) :
  tracked_change changed = true ->
  trace (world_of (call [(0, answer)] (update changed) w)) =
  trace w ++
  (if unstableWebxr w && IS_WEBXR_AR_CANDIDATE
   then [CalledSupportsPresentation] else []).
Proof.
  intros H. unfold call, update, world_of. rewrite (tracked_change_guard _ H).
  destruct (unstableWebxr w && IS_WEBXR_AR_CANDIDATE) eqn:Hq;
    cbn; rewrite Hq; cbn.
  - destruct answer as [v|e]; cbn; [|reflexivity].
    destruct (truthy v), IS_ANDROID, (ar w), IS_IOS,
      IS_AR_QUICKLOOK_CANDIDATE, (truthy_string (iosSrc w)); reflexivity.
  - rewrite app_nil_r.
    destruct IS_ANDROID, (ar w), IS_IOS,
      IS_AR_QUICKLOOK_CANDIDATE, (truthy_string (iosSrc w)); reflexivity.
Qed.

Lemma addEventListener_click_idem (l : ClickListener)
  (ls : list ClickListener) :
  addEventListener_click l (addEventListener_click l ls) =
  addEventListener_click l ls.
Proof.
  unfold addEventListener_click at 1.
  destruct (existsb (ClickListener_eqb l) (addEventListener_click l ls))
    eqn:E; [reflexivity|].
  assert (H : existsb (ClickListener_eqb l) (addEventListener_click l ls) = true).
  { apply existsb_exists. exists l. split.
    - unfold addEventListener_click.
      destruct (existsb (ClickListener_eqb l) ls) eqn:E'.
      + apply existsb_exists in E'. destruct E' as [x [Hin Hx]].
        destruct l as [|n], x as [|m]; cbn in Hx; try discriminate;
          [exact Hin|].
        apply Nat.eqb_eq in Hx. now subst.
      + apply in_or_app. right. now left.
    - destruct l as [|n]; cbn; [reflexivity|apply Nat.eqb_refl]. }
  rewrite H in E. discriminate E.
Qed.

Lemma removeEventListener_click_idem (l : ClickListener)
  (ls : list ClickListener) :
  removeEventListener_click l (removeEventListener_click l ls) =
  removeEventListener_click l ls.
Proof.
  unfold removeEventListener_click. induction ls as [|x ls IH]; cbn;
    [reflexivity|].
  destruct (negb (ClickListener_eqb l x)) eqn:E; cbn; [|exact IH].
  rewrite E. now rewrite IH.
Qed.

#[local] Arguments addEventListener_click : simpl never.
#[local] Arguments removeEventListener_click : simpl never.

(** Recomputing again with the same inputs and the same answer of the
    renderer changes nothing more: the mode, the display of the button
    and its click listeners are those the first recomputation left (the
    handler is not registered a second time). *)
Theorem update_twice_is_update_once (w : World) (changed changed' : list string)
  (supported : Value) :
  tracked_change changed = true ->
  tracked_change changed' = true ->
  selection_of
    (world_of
       (call [(0, Fulfilled supported)] (update changed')
          (world_of (call [(0, Fulfilled supported)] (update changed) w)))) =
  selection_of (world_of (call [(0, Fulfilled supported)] (update changed) w)).
Proof.
  intros H H'. unfold call, update, world_of, selection_of.
  rewrite (tracked_change_guard _ H), (tracked_change_guard _ H').
  destruct (unstableWebxr w) eqn:Ho, IS_WEBXR_AR_CANDIDATE eqn:Hc;
    cbn; rewrite ?Ho; cbn;
    destruct (truthy supported) eqn:Hs, IS_ANDROID, (ar w) eqn:Ha, IS_IOS,
      IS_AR_QUICKLOOK_CANDIDATE, (truthy_string (iosSrc w)) eqn:Hi;
    cbn; rewrite ?Ho, ?Ha, ?Hi, ?Hs; cbn; rewrite ?Ho, ?Ha, ?Hi, ?Hs; cbn;
    rewrite ?addEventListener_click_idem, ?removeEventListener_click_idem;
    reflexivity.
Qed.

Lemma NoDup_addEventListener_click (l : ClickListener)
  (ls : list ClickListener) :
  NoDup ls -> NoDup (addEventListener_click l ls).
Proof.
  intros H. unfold addEventListener_click.
  destruct (existsb (ClickListener_eqb l) ls) eqn:E; [exact H|].
  assert (Hn : ~ In l ls).
  { intros Hin.
    assert (T : existsb (ClickListener_eqb l) ls = true).
    { apply existsb_exists. exists l. split; [exact Hin|].
      destruct l as [|n]; cbn; [reflexivity|apply Nat.eqb_refl]. }
    rewrite T in E. discriminate E. }
  clear E. induction H as [|x ls Hx Hls IH]; cbn.
  - constructor; [intros []|constructor].
  - constructor.
    + intros Hin. apply in_app_or in Hin. destruct Hin as [Hin|[->|[]]].
      * now apply Hx.
      * apply Hn. now left.
    + apply IH. intros Hin. apply Hn. now right.
Qed.

Lemma other_listener_add (n : nat) (ls : list ClickListener) :
  In (OtherClickListener n) (addEventListener_click ArButtonClickHandler ls) <->
  In (OtherClickListener n) ls.
Proof.
  unfold addEventListener_click.
  destruct (existsb (ClickListener_eqb ArButtonClickHandler) ls);
    [reflexivity|].
  split; intros H.
  - apply in_app_or in H. destruct H as [H|[H|[]]]; [exact H|discriminate H].
  - apply in_or_app. now left.
Qed.

Lemma other_listener_remove (n : nat) (ls : list ClickListener) :
  In (OtherClickListener n)
    (removeEventListener_click ArButtonClickHandler ls) <->
  In (OtherClickListener n) ls.
Proof.
  unfold removeEventListener_click. rewrite filter_In. cbn.
  split; [now intros [H _]|now split].
Qed.

(** A recomputation never registers the click handler twice and never
    removes or adds a listener that is not its own: if the button's
    click listeners were without duplicates they still are, and the
    listeners of others are the same as before. *)
Theorem update_spares_other_listeners (w : World) (changed : list string)
  (supported : Value) :
  NoDup (arButton_click w) ->
  NoDup
    (arButton_click
       (world_of (call [(0, Fulfilled supported)] (update changed) w))) /\
  forall n,
    In (OtherClickListener n)
      (arButton_click
         (world_of (call [(0, Fulfilled supported)] (update changed) w))) <->
    In (OtherClickListener n) (arButton_click w).
Proof.
  intros Hnd.
  destruct (tracked_change changed) eqn:H.
  - unfold call, update, world_of. rewrite (tracked_change_guard _ H).
    destruct (unstableWebxr w) eqn:Ho, IS_WEBXR_AR_CANDIDATE eqn:Hc;
      cbn; rewrite ?Ho; cbn;
      destruct (truthy supported), IS_ANDROID, (ar w), IS_IOS,
        IS_AR_QUICKLOOK_CANDIDATE, (truthy_string (iosSrc w)); cbn;
      (split;
       [ first [ now apply NoDup_addEventListener_click
               | now apply NoDup_filter ]
       | intros n;
         first [ apply other_listener_add | apply other_listener_remove ] ]).
  - rewrite (update_ignores_untracked_changes _ _ _ H). cbn.
    split; [exact Hnd|reflexivity].
Qed.

(** When the renderer's answer arrives, the suspended recomputation
    reads the AR opt-in and the iOS asset reference as they are then,
    and does not read the unstable-webxr opt-in again: in whatever
    world it resumes, the mode it applies is [unstable-webxr] when the
    answer is truthy, and otherwise the one of the remaining steps on
    the values of that moment. *)
Theorem update_resumes_on_current_inputs (w w1 : World) (st1 : Store)
  (changed : list string) (k : Prog unit) :
  tracked_change changed = true ->
  run (update changed) w [] = (Blocked 0 k, w1, st1) ->
  forall (later : World) (supported : Value) (handled : bool),
    exists w' st',
      run k later
        [(0, mkPromise KSupportsPresentation (Settled (Fulfilled supported))
               handled)] = (Done tt, w', st') /\
      arMode w' =
        if truthy supported then UNSTABLE_WEBXR
        else if IS_ANDROID && ar later then AR_VIEWER
        else if IS_IOS && IS_AR_QUICKLOOK_CANDIDATE &&
                truthy_string (iosSrc later) then QUICK_LOOK
        else NONE.
Proof.
  intros H. unfold update. rewrite (tracked_change_guard _ H).
  destruct (unstableWebxr w && IS_WEBXR_AR_CANDIDATE) eqn:Hq;
    cbn; rewrite Hq; cbn.
  - intros E later supported handled. injection E as <- _ _. cbn.
    destruct (truthy supported), IS_ANDROID, (ar later), IS_IOS,
      IS_AR_QUICKLOOK_CANDIDATE, (truthy_string (iosSrc later)); cbn;
      do 2 eexists; split; reflexivity.
  - destruct IS_ANDROID, (ar w), IS_IOS,
      IS_AR_QUICKLOOK_CANDIDATE, (truthy_string (iosSrc w)); cbn;
      intros E; discriminate E.
Qed.

End Recomputation.

(** ** More on [enterARWithWebXR] *)

Ltac two_settlements :=
  unfold call; run_to_await; settle_now; run_to_await; settle_now; cbn.

Ltac same_world := rewrite <- ?app_assoc; reflexivity.

(** In its first turn the activation logs its attempt, requests full
    screen, then calls [present], and suspends on the presentation: the
    full-screen request is made first and has no reaction attached
    yet. *)
Theorem enterARWithWebXR_requests_fullscreen_first (w : World) :
  exists k,
    run enterARWithWebXR w [] =
      (Blocked 1 k,
       set_trace
         (trace w ++
          [ConsoleLog "Attempting to enter fullscreen and present in AR...";
           CalledRequestFullscreen; CalledPresent ThisScene]) w,
       [(1, mkPromise KPresent Pending true);
        (0, mkPromise KRequestFullscreen Pending false)]).
Proof. eexists. cbn. same_world. Qed.



(** When both [present] and the full-screen request are rejected, the
    activation logs both errors and ends: nothing is appended to the
    shadow root and [exitFullscreen] is not called. *)
Theorem enterARWithWebXR_both_rejected (w : World) (e0 e1 : JsError) :
  let logged :=
    [ConsoleWarn "Error while trying to present to AR";
     ConsoleError e1; ConsoleError e0;
     ConsoleWarn "AR will not activate without fullscreen permission"] in
  let started :=
    [ConsoleLog "Attempting to enter fullscreen and present in AR...";
     CalledRequestFullscreen; CalledPresent ThisScene] in
  (exists st',
     call [(0, Rejected e0); (1, Rejected e1)] enterARWithWebXR w =
       (Done tt,
        set_trace (trace w ++ started ++ [UnhandledRejection e0] ++ logged) w,
        st')) /\
  (exists st',
     call [(1, Rejected e1); (0, Rejected e0)] enterARWithWebXR w =
       (Done tt, set_trace (trace w ++ started ++ logged) w, st')).
Proof.
  cbn zeta. split; two_settlements; eexists; same_world.
Qed.

(** When [present] is fulfilled with something that is not a node,
    [appendChild] throws inside the [try] block and the activation
    recovers as from a rejected presentation: with full screen granted,
    in either order, it ends having called [exitFullscreen] last and
    having appended nothing. *)
Theorem enterARWithWebXR_bad_surface_exits_fullscreen (w : World)
  (surface granted : Value) :
  (forall n, surface <> VElement n) ->
  (exists w' st',
     call [(0, Fulfilled granted); (1, Fulfilled surface)] enterARWithWebXR w =
       (Done tt, w', st') /\
     exited_fullscreen_unattached w w' st') /\
  (exists w' st',
     call [(1, Fulfilled surface); (0, Fulfilled granted)] enterARWithWebXR w =
       (Done tt, w', st') /\
     exited_fullscreen_unattached w w' st').
Proof.
  intros Hs. unfold exited_fullscreen_unattached.
  destruct surface as [|b|n]; [| |now destruct (Hs n)];
    (split; two_settlements;
     do 2 eexists; (split; [reflexivity|]); cbn;
     (split; [reflexivity|]);
     (split; [eexists; apply snoc_snoc|]);
     (split; [reflexivity|]);
     now rewrite fullscreenElement_dispatch).
Qed.

(** * Properties of the environment mixin *)

Section EnvironmentProperties.

Variable Number : Type.

(** Textures that arrive after the background image has changed are
    dropped: nothing is disposed, nothing is applied, the state is the
    one the answer found. *)
Theorem setEnvironmentImage_drops_stale_textures (s : Environment.State Number) (url : string)
  (textures : option (Environment.Texture * Environment.Texture)) :
  Environment.backgroundImage s <> Some url ->
  Environment.setEnvironmentImage_resume url textures s = s.
Proof.
  intros H. unfold Environment.setEnvironmentImage_resume.
  destruct (Environment.backgroundImage s) as [current|]; [|reflexivity].
  destruct (String.eqb url current) eqn:E; [|reflexivity].
  apply String.eqb_eq in E. subst. now destruct H.
Qed.

(** Textures that arrive while their url is still the background image
    are installed: the skybox becomes the scene's background, the
    environment map the current one, and the shadow light is white
    blended with white. *)
Theorem setEnvironmentImage_installs_current_textures (s : Environment.State Number)
  (url : string) (skybox environmentMap : Environment.Texture) :
  Environment.backgroundImage s = Some url ->
  Environment.environment_of
    (Environment.setEnvironmentImage_resume url
       (Some (skybox, environmentMap)) s) =
  (Environment.Skybox skybox, Some environmentMap,
   Environment.LerpHSL Environment.WHITE Environment.WHITE).
Proof.
  intros H. unfold Environment.setEnvironmentImage_resume.
  rewrite H, String.eqb_refl. cbn.
  unfold Environment.deallocateTextures.
  destruct (Environment.scene_background s); cbn;
    destruct (Environment.currentEnvironmentMap s); reflexivity.
Qed.

(** When the load of the current background image yields no textures,
    the skybox and the environment map in place are disposed, the
    environment map is cleared and the model is told so; the scene's
    background is left as it was, disposed or not, and so is the shadow
    light. *)
Theorem setEnvironmentImage_failed_load (s : Environment.State Number) (url : string) :
  Environment.backgroundImage s = Some url ->
  let s' := Environment.setEnvironmentImage_resume url None s in
  Environment.currentEnvironmentMap s' = None /\
  Environment.scene_background s' = Environment.scene_background s /\
  Environment.shadowLight_color s' = Environment.shadowLight_color s /\
  Environment.effects s' =
    Environment.effects s ++
    (match Environment.scene_background s with
     | Environment.Skybox t => [Environment.Dispose Number t]
     | _ => []
     end) ++
    (match Environment.currentEnvironmentMap s with
     | Some m => [Environment.Dispose Number m]
     | None => []
     end) ++
    [Environment.ModelApplyEnvironmentMap Number None;
     Environment.EnvironmentChanged Number;
     Environment.ConfigureStageLighting
       (Environment.stageLightIntensity s)
       (if Environment.experimentalPmrem s
        then Environment.Secondary else Environment.Primary);
     Environment.NeedsRender Number].
Proof.
  intros H. cbn zeta. unfold Environment.setEnvironmentImage_resume.
  rewrite H, String.eqb_refl. cbn.
  unfold Environment.deallocateTextures.
  destruct (Environment.scene_background s) eqn:Hb; cbn;
    destruct (Environment.currentEnvironmentMap s) eqn:Hm; cbn;
    rewrite ?Hb, ?Hm; repeat split; rewrite <- ?app_assoc; reflexivity.
Qed.

(** An environment map is never replaced without being disposed
    first.  With an environment map [m] in place, a new plain
    background (whatever the background image is, none included) and
    the textures of the current background image both dispose [m]
    after applying no environment map to the model, and apply the map
    they install only after that disposal. *)
Theorem environment_map_disposed_before_replaced (s : Environment.State Number)
  (m : Environment.Texture) (color url : string)
  (textures : option (Environment.Texture * Environment.Texture)) :
  Environment.currentEnvironmentMap s = Some m ->
  (Environment.textureUtils s = true ->
   exists before after,
     Environment.effects (Environment.setEnvironmentColor color s) =
       Environment.effects s ++
       before ++ Environment.Dispose Number m :: after /\
     (forall m',
        ~ In (Environment.ModelApplyEnvironmentMap Number m') before) /\
     In (Environment.ModelApplyEnvironmentMap Number
           (Environment.currentEnvironmentMap
              (Environment.setEnvironmentColor color s)))
        after) /\
  (Environment.backgroundImage s = Some url ->
   exists before after,
     Environment.effects
       (Environment.setEnvironmentImage_resume url textures s) =
       Environment.effects s ++
       before ++ Environment.Dispose Number m :: after /\
     (forall m',
        ~ In (Environment.ModelApplyEnvironmentMap Number m') before) /\
     In (Environment.ModelApplyEnvironmentMap Number
           (Environment.currentEnvironmentMap
              (Environment.setEnvironmentImage_resume url textures s)))
        after).
Proof.
  intros Hm. split.
  - intros Ht. unfold Environment.setEnvironmentColor. rewrite Ht. cbn.
    unfold Environment.deallocateTextures.
    destruct (Environment.scene_background s) as [|t|c]; cbn; rewrite Hm; cbn;
      rewrite <- ?app_assoc;
      [exists []|exists [Environment.Dispose Number t]|exists []];
      eexists; (split; [reflexivity|]);
      (split; [|cbn; tauto]).
    1, 3: intros m' [].
    intros m' [H|[]]. discriminate H.
  - intros Hu. unfold Environment.setEnvironmentImage_resume.
    rewrite Hu, String.eqb_refl. cbn.
    unfold Environment.deallocateTextures.
    destruct textures as [[sky env]|];
      destruct (Environment.scene_background s) as [|t|c]; cbn; rewrite Hm; cbn;
      rewrite <- ?app_assoc.
    1, 3, 4, 6: exists []; eexists; (split; [reflexivity|]);
      (split; [intros m' []|cbn; tauto]).
    all: exists [Environment.Dispose Number t]; eexists;
      (split; [reflexivity|]);
      (split; [intros m' [H|[]]; discriminate H|cbn; tauto]).
Qed.

(** Without texture utilities on the renderer the mixin leaves the
    environment alone: [update] and [firstUpdated] change neither the
    background, nor the environment map, nor the shadow light, and
    [update] requests no textures. *)
Theorem environment_untouched_without_textureUtils (s : Environment.State Number)
  (changed : list string) :
  Environment.textureUtils s = false ->
  Environment.environment_of (fst (Environment.update changed s)) =
    Environment.environment_of s /\
  snd (Environment.update changed s) = None /\
  Environment.firstUpdated changed s = s.
Proof.
  intros Ht. destruct s as [bi bc pm si sl ex cm bg ssi slc rex tu dm ef].
  cbn in Ht. subst tu.
  unfold Environment.update, Environment.firstUpdated,
    Environment.setEnvironmentImage_request, Environment.setEnvironmentColor,
    Environment.hasBackgroundImage, Environment.hasBackgroundColor.
  destruct (has "shadowIntensity" changed), (has "exposure" changed),
    (has "stageLightIntensity" changed), (has "backgroundImage" changed),
    (has "backgroundColor" changed), (has "experimentalPmrem" changed);
    cbn;
    destruct (Environment.given bi), (Environment.given bc);
    repeat split; reflexivity.
Qed.

Lemma reactions_keep_environment (s : Environment.State Number)
  (changed : list string) :
  let s1 := if has "shadowIntensity" changed
            then Environment.updateShadow s else s in
  let s2 := if has "exposure" changed
            then Environment.updateToneMapping s1 else s1 in
  let s3 := if has "stageLightIntensity" changed
            then Environment.updateStageLighting s2 else s2 in
  Environment.backgroundImage s3 = Environment.backgroundImage s /\
  Environment.backgroundColor s3 = Environment.backgroundColor s /\
  Environment.textureUtils s3 = Environment.textureUtils s /\
  Environment.environment_of s3 = Environment.environment_of s.
Proof.
  destruct s.
  destruct (has "shadowIntensity" changed), (has "exposure" changed),
    (has "stageLightIntensity" changed); repeat split; reflexivity.
Qed.

Lemma setEnvironmentColor_background (s : Environment.State Number)
  (color : string) :
  Environment.textureUtils s = true ->
  Environment.scene_background (Environment.setEnvironmentColor color s) =
  Environment.Plain (Environment.Parsed color).
Proof.
  intros Ht. unfold Environment.setEnvironmentColor. rewrite Ht.
  reflexivity.
Qed.

Lemma setEnvironmentColor_textureUtils (s : Environment.State Number)
  (color : string) :
  Environment.textureUtils (Environment.setEnvironmentColor color s) =
  Environment.textureUtils s.
Proof.
  unfold Environment.setEnvironmentColor.
  destruct (Environment.textureUtils s) eqn:Ht; cbn; [|exact Ht].
  unfold Environment.deallocateTextures.
  destruct (Environment.scene_background s); cbn;
    destruct (Environment.currentEnvironmentMap s); exact Ht.
Qed.

(** When a background property (or the pmrem switch) has changed and
    the renderer has texture utilities, [update] picks the background
    by precedence: a background image that is neither empty nor the
    text null is requested and the environment is left as it is until
    the textures arrive; otherwise the background becomes the
    background colour, if there is one that is neither empty nor the
    text null, and else white. *)
Theorem update_chooses_background (s : Environment.State Number) (changed : list string) :
  Environment.textureUtils s = true ->
  has "backgroundImage" changed || has "backgroundColor" changed ||
  has "experimentalPmrem" changed = true ->
  if Environment.hasBackgroundImage s
  then
    snd (Environment.update changed s) =
      Some (or_empty (Environment.backgroundImage s)) /\
    Environment.environment_of (fst (Environment.update changed s)) =
      Environment.environment_of s
  else
    snd (Environment.update changed s) = None /\
    Environment.scene_background (fst (Environment.update changed s)) =
      Environment.Plain
        (Environment.Parsed
           (if Environment.hasBackgroundColor s
            then or_empty (Environment.backgroundColor s)
            else Environment.DEFAULT_BACKGROUND_COLOR)).
Proof.
  intros Ht Hc.
  destruct (reactions_keep_environment s changed) as [Ki [Kc [Kt Ke]]].
  unfold Environment.update. cbv zeta in *.
  set (s3 := if has "stageLightIntensity" changed then _ else _) in *.
  clearbody s3.
  assert (G : negb (has "backgroundImage" changed) &&
              negb (has "backgroundColor" changed) &&
              negb (has "experimentalPmrem" changed) = false).
  { destruct (has "backgroundImage" changed), (has "backgroundColor" changed),
      (has "experimentalPmrem" changed); cbn in *; congruence. }
  rewrite G. unfold Environment.hasBackgroundImage,
    Environment.hasBackgroundColor. rewrite Ki, Kc.
  rewrite Ht in Kt.
  destruct (Environment.given (Environment.backgroundImage s)).
  - unfold Environment.setEnvironmentImage_request. rewrite Kt.
    split; [reflexivity|]. now rewrite <- Ke.
  - destruct (Environment.given (Environment.backgroundColor s));
      (split; [reflexivity|]); cbn [fst];
      now apply setEnvironmentColor_background.
Qed.

(** After the first render ([update], then [firstUpdated], on the same
    changed properties) of an element whose renderer has texture
    utilities, textures are on request or the scene has a plain
    background: the scene is never left without one. *)
Theorem first_render_sets_a_background (s : Environment.State Number) (changed : list string) :
  Environment.textureUtils s = true ->
  snd (Environment.update changed s) <> None \/
  exists c,
    Environment.scene_background
      (Environment.firstUpdated changed (fst (Environment.update changed s))) =
    Environment.Plain c.
Proof.
  intros Ht.
  destruct (reactions_keep_environment s changed) as [Ki [Kc [Kt Ke]]].
  unfold Environment.update, Environment.firstUpdated. cbv zeta in *.
  set (s3 := if has "stageLightIntensity" changed then _ else _) in *.
  clearbody s3. rewrite Ht in Kt.
  unfold Environment.hasBackgroundImage, Environment.hasBackgroundColor.
  rewrite Ki, Kc.
  destruct (has "backgroundImage" changed), (has "backgroundColor" changed),
    (has "experimentalPmrem" changed); cbn [negb andb fst snd];
    try (right; eexists; now apply setEnvironmentColor_background);
    (destruct (Environment.given (Environment.backgroundImage s));
     [ left; unfold Environment.setEnvironmentImage_request; rewrite Kt;
       discriminate
     | destruct (Environment.given (Environment.backgroundColor s));
       cbn [fst snd]; right; eexists;
       first [ now apply setEnvironmentColor_background
             | apply setEnvironmentColor_background;
               now rewrite setEnvironmentColor_textureUtils ] ]).
Qed.

(** When the model has loaded, the current environment map is applied
    to it again (and the change announced, the stage lighting
    configured, a render requested); with no current map nothing
    happens.  The environment itself stays as it is. *)
Theorem onModelLoad_reapplies_environment_map (s : Environment.State Number) :
  Environment.environment_of (Environment.onModelLoad s) =
    Environment.environment_of s /\
  Environment.effects (Environment.onModelLoad s) =
    Environment.effects s ++
    match Environment.currentEnvironmentMap s with
    | Some m =>
        [Environment.ModelApplyEnvironmentMap Number (Some m);
         Environment.EnvironmentChanged Number;
         Environment.ConfigureStageLighting
           (Environment.stageLightIntensity s)
           (if Environment.experimentalPmrem s
            then Environment.Secondary else Environment.Primary);
         Environment.NeedsRender Number]
    | None => []
    end.
Proof.
  unfold Environment.onModelLoad, Environment.environment_of.
  destruct (Environment.currentEnvironmentMap s) as [m|] eqn:Hm; cbn.
  - rewrite ?Hm. split; [reflexivity|]. now rewrite <- !app_assoc.
  - rewrite ?Hm, app_nil_r. split; reflexivity.
Qed.

End EnvironmentProperties.

(** * The text put in the intent URI *)

Lemma unreserved_not_delimiter (c : ascii) :
  uri_unreserved c = true -> uri_delimiter c = false.
Proof.
  destruct c as [[] [] [] [] [] [] [] []]; vm_compute; congruence.
Qed.

Lemma hex_digit_not_delimiter (n : nat) : uri_delimiter (hex_digit n) = false.
Proof.
  do 16 (destruct n as [|n]; [reflexivity|]). reflexivity.
Qed.

(** Whatever the page location and the title are, their encoded forms,
    which [openARViewer] puts after [?link=] and [&title=], contain
    none of the characters [& # ? = / : ;] nor a space: neither can add
    a parameter to the intent URI or end its query early. *)
Theorem encodeURIComponent_has_no_delimiter (s : string) :
  forallb (fun c => negb (uri_delimiter c))
    (list_ascii_of_string (encodeURIComponent s)) = true.
Proof.
  induction s as [|c s IH]; [reflexivity|].
  cbn [encodeURIComponent].
  destruct (uri_unreserved c) eqn:U;
    cbn [list_ascii_of_string forallb].
  - now rewrite (unreserved_not_delimiter _ U), IH.
  - now rewrite !hex_digit_not_delimiter, IH.
Qed.

(** * Concrete runs of the further properties *)

Lemma update_ignores_untracked_changes_witness :
  tracked_change ["exposure"] = false /\
  call [] (@update android ["exposure"])
    (with_inputs true false None None None (fresh page)) =
  (Done tt, with_inputs true false None None None (fresh page), []).
Proof.
  split; [reflexivity|].
  apply (@update_ignores_untracked_changes android
           (with_inputs true false None None None (fresh page))
           ["exposure"] [] eq_refl).
Defined.

Lemma update_asks_renderer_only_when_opted_in_witness :
  tracked_change ["unstableWebxr"] = true /\
  trace
    (world_of
       (call [(0, Fulfilled (VBool true))]
          (@update android_webxr ["unstableWebxr"])
          (with_inputs false true None None None (fresh page)))) =
  [CalledSupportsPresentation].
Proof.
  split; [reflexivity|].
  apply (@update_asks_renderer_only_when_opted_in android_webxr
           (with_inputs false true None None None (fresh page))
           ["unstableWebxr"] (Fulfilled (VBool true)) eq_refl).
Defined.

Lemma update_twice_is_update_once_witness :
  tracked_change ["ar"] = true /\
  tracked_change ["alt"] = true /\
  selection_of
    (world_of
       (call [(0, Fulfilled (VBool false))] (@update android ["alt"])
          (world_of
             (call [(0, Fulfilled (VBool false))] (@update android ["ar"])
                (with_inputs true false None None None (fresh page)))))) =
  (AR_VIEWER, "block", [ArButtonClickHandler]).
Proof.
  split; [reflexivity|]. split; [reflexivity|].
  rewrite (@update_twice_is_update_once android
             (with_inputs true false None None None (fresh page))
             ["ar"] ["alt"] (VBool false) eq_refl eq_refl).
  reflexivity.
Defined.

Lemma update_spares_other_listeners_witness :
  NoDup
    (arButton_click
       (set_arButton_click [OtherClickListener 4]
          (with_inputs true false None None None (fresh page)))) /\
  In (OtherClickListener 4)
    (arButton_click
       (world_of
          (call [(0, Fulfilled (VBool false))] (@update android ["ar"])
             (set_arButton_click [OtherClickListener 4]
                (with_inputs true false None None None (fresh page)))))).
Proof.
  assert (H : NoDup
    (arButton_click
       (set_arButton_click [OtherClickListener 4]
          (with_inputs true false None None None (fresh page))))).
  { cbn. constructor; [intros []|constructor]. }
  split; [exact H|].
  apply (@update_spares_other_listeners android _ ["ar"] (VBool false) H).
  cbn. now left.
Defined.

Lemma update_resumes_on_current_inputs_witness :
  tracked_change ["unstableWebxr"] = true /\
  exists k w1 st1,
    run (@update android_webxr ["unstableWebxr"])
      (with_inputs false true None None None (fresh page)) [] =
      (Blocked 0 k, w1, st1) /\
    exists w' st',
      run k (set_unstableWebxr false w1)
        [(0, mkPromise KSupportsPresentation
               (Settled (Fulfilled (VBool true))) true)] = (Done tt, w', st') /\
      arMode w' = UNSTABLE_WEBXR.
Proof.
  split; [reflexivity|]. do 3 eexists. split; [reflexivity|].
  destruct (@update_resumes_on_current_inputs android_webxr
              (with_inputs false true None None None (fresh page)) _ _
              ["unstableWebxr"] _ eq_refl eq_refl
              (set_unstableWebxr false
                 (set_trace [CalledSupportsPresentation]
                    (with_inputs false true None None None (fresh page))))
              (VBool true) true)
    as [w' [st' [E M]]].
  exists w', st'. split; [exact E|exact M].
Defined.

Lemma enterARWithWebXR_bad_surface_exits_fullscreen_witness :
  (forall n, VUndefined <> VElement n) /\
  exists w' st',
    call [(0, Fulfilled VUndefined); (1, Fulfilled VUndefined)]
      enterARWithWebXR (fresh page) = (Done tt, w', st') /\
    exited_fullscreen_unattached (fresh page) w' st'.
Proof.
  assert (H : forall n, VUndefined <> VElement n) by (intros n; discriminate).
  split; [exact H|].
  apply (@enterARWithWebXR_bad_surface_exits_fullscreen (fresh page)
           VUndefined VUndefined H).
Defined.

Lemma setEnvironmentImage_drops_stale_textures_witness :
  Environment.backgroundImage Environment.studio <> Some "old.hdr" /\
  Environment.setEnvironmentImage_resume "old.hdr" (Some (20, 21))
    Environment.studio = Environment.studio.
Proof.
  assert (H : Environment.backgroundImage Environment.studio <> Some "old.hdr")
    by discriminate.
  split; [exact H|].
  apply (@setEnvironmentImage_drops_stale_textures nat Environment.studio
           "old.hdr" (Some (20, 21)) H).
Defined.

Lemma setEnvironmentImage_installs_current_textures_witness :
  Environment.backgroundImage Environment.studio = Some "sky.hdr" /\
  Environment.environment_of
    (Environment.setEnvironmentImage_resume "sky.hdr" (Some (20, 21))
       Environment.studio) =
  (Environment.Skybox 20, Some 21,
   Environment.LerpHSL Environment.WHITE Environment.WHITE).
Proof.
  split; [reflexivity|].
  apply (@setEnvironmentImage_installs_current_textures nat
           Environment.studio "sky.hdr" 20 21 eq_refl).
Defined.

Lemma setEnvironmentImage_failed_load_witness :
  Environment.backgroundImage Environment.studio = Some "sky.hdr" /\
  Environment.currentEnvironmentMap
    (Environment.setEnvironmentImage_resume "sky.hdr" None
       Environment.studio) = None /\
  Environment.scene_background
    (Environment.setEnvironmentImage_resume "sky.hdr" None
       Environment.studio) = Environment.Skybox 3.
Proof.
  split; [reflexivity|].
  destruct (@setEnvironmentImage_failed_load nat Environment.studio
              "sky.hdr" eq_refl) as [Hm [Hb _]].
  split; [exact Hm|exact Hb].
Defined.

Lemma environment_map_disposed_before_replaced_witness :
  Environment.currentEnvironmentMap Environment.showroom = Some 7 /\
  Environment.backgroundImage Environment.showroom = None /\
  Environment.textureUtils Environment.showroom = true /\
  exists before after,
    Environment.effects
      (Environment.setEnvironmentColor "#336699" Environment.showroom) =
      Environment.effects Environment.showroom ++
      before ++ Environment.Dispose nat 7 :: after /\
    (forall m', ~ In (Environment.ModelApplyEnvironmentMap nat m') before) /\
    In (Environment.ModelApplyEnvironmentMap nat (Some 11)) after.
Proof.
  do 3 (split; [reflexivity|]).
  exact (proj1 (@environment_map_disposed_before_replaced nat
                  Environment.showroom 7 "#336699" "sky.hdr" None eq_refl)
           eq_refl).
Defined.

Lemma environment_untouched_without_textureUtils_witness :
  Environment.textureUtils
    (Environment.without_textureUtils Environment.studio) = false /\
  Environment.environment_of
    (fst (Environment.update ["backgroundColor"]
            (Environment.without_textureUtils Environment.studio))) =
  (Environment.Skybox 3, Some 7, Environment.Parsed "#000000").
Proof.
  split; [reflexivity|].
  rewrite (proj1 (@environment_untouched_without_textureUtils nat
                    (Environment.without_textureUtils Environment.studio)
                    ["backgroundColor"] eq_refl)).
  reflexivity.
Defined.

Lemma update_chooses_background_witness :
  Environment.textureUtils Environment.studio = true /\
  has "backgroundImage" ["backgroundImage"] ||
  has "backgroundColor" ["backgroundImage"] ||
  has "experimentalPmrem" ["backgroundImage"] = true /\
  snd (Environment.update ["backgroundImage"] Environment.studio) =
  Some "sky.hdr".
Proof.
  split; [reflexivity|]. split; [reflexivity|].
  assert (H := @update_chooses_background nat Environment.studio
                 ["backgroundImage"] eq_refl eq_refl).
  hnf in H. exact (proj1 H).
Defined.

Lemma first_render_sets_a_background_witness :
  Environment.textureUtils Environment.studio = true /\
  (snd (Environment.update ["exposure"] Environment.studio) <> None \/
   exists c,
     Environment.scene_background
       (Environment.firstUpdated ["exposure"]
          (fst (Environment.update ["exposure"] Environment.studio))) =
     Environment.Plain c).
Proof.
  split; [reflexivity|].
  apply (@first_render_sets_a_background nat Environment.studio
           ["exposure"] eq_refl).
Defined.
